(** * Multi-agent goal engine: planner, execution loop and evaluator

    A shallow embedding of [app.py]: the keyword planner
    ([PlannerAgent._analyze_goal], [PlannerAgent.execute]), the
    orchestrator loop ([MultiAgentSystem.execute_goal]) and the scoring
    function ([MultiAgentSystem.evaluate_goal_satisfaction]); and, of
    the weather agent, the functions that do not touch the network
    ([WeatherAgent._extract_location], [_get_mock_weather_data],
    [_analyze_weather_for_launch]).

    Conventions of the embedding.
    - A Python [str] is a [string]; each character stands for one code
      point below 256, on which [str.lower()] is the map [lower_char].
    - A [dict] with string keys is a [gmap string _]; [d.update(e)] is
      the left-biased union [e ∪ d]. Values are immutable: what an agent
      stores in its data is the value as it was when the agent ran.
    - The five data-fetching agents are taken as arbitrary functions
      from the context to an outcome ([Collaborators]): a call returns
      an [AgentResult] or raises. Each [execute] catches the exceptions
      of its own work and turns them into a failed result, but calls
      [log_execution] after that, outside its [try/except]; what
      [log_execution] raises (it serializes the context, and fails on a
      context that holds itself) leaves [execute] and then
      [execute_goal], which has no handler.
    - [PlannerAgent.execute] has no handler either: an exception it
      raises leaves [execute_goal] ([Raised]).
    - Python floats are the binary64 primitive floats. *)

From Stdlib Require Import ZArith NArith Ascii String.
From Stdlib Require Import Floats.PrimFloat Floats.SpecFloat Floats.FloatOps.
From Stdlib Require Import Numbers.Cyclic.Int63.Uint63.
From stdpp Require Import gmap strings list fin_maps pretty.

Open Scope string_scope.
Open Scope list_scope.

#[local] Set Warnings "-register-all".

(** ** Python strings *)

(** [str.lower()] on one code point below 256: A..Z and the capital
    letters of the Latin-1 block (all of 0xC0..0xDE but the
    multiplication sign 0xD7) move up by 32. *)
Definition lower_char (c : ascii) : ascii :=
  let n := N_of_ascii c in
  if ((65 <=? n) && (n <=? 90) || (192 <=? n) && (n <=? 222) && negb (n =? 215))%N
  then ascii_of_N (n + 32) else c.

Fixpoint lower (s : string) : string :=
  match s with
  | EmptyString => EmptyString
  | String c s' => String (lower_char c) (lower s')
  end.

(** [kw in s]: [kw] occurs in [s] as a contiguous run of characters. *)
Fixpoint contains (kw s : string) : bool :=
  String.prefix kw s ||
  match s with
  | EmptyString => false
  | String _ s' => contains kw s'
  end.

(** [any(keyword in goal_text for keyword in keywords)] *)
Definition any_keyword_in (keywords : list string) (goal_text : string) : bool :=
  existsb (fun keyword => contains keyword goal_text) keywords.

(** ** Values, contexts and results *)

(** The values an agent may store in its [data] dictionary. The engine
    itself only ever looks inside the list of agent names stored under
    ["plan"]. *)
Inductive Value : Type :=
| VNone
| VBool (b : bool)
| VInt (z : Z)
| VStr (s : string)
| VNames (l : list string)
| VList (l : list Value)
| VDict (d : list (string * Value)).

Record AgentResult : Type := mkAgentResult {
  agent_name : string;
  success : bool;
  data : gmap string Value;
  message : string;
  next_agent : option string
}.

Record Goal : Type := mkGoal {
  description : string;
  plan : list string;
  current_step : nat;
  results : list AgentResult;
  is_complete : bool
}.

(** What a call may do: return a value or raise. *)
Inductive Outcome (A : Type) : Type :=
| Raised
| Returned (a : A).
Arguments Raised {A}.
Arguments Returned {A} a.

(** [BaseAgent.execute]: from the shared context to a result. *)
Definition Agent : Type := gmap string Value -> Outcome AgentResult.

(** ** The planner *)

Module PlannerAgent.

Definition spacex_keywords : list string :=
  ["spacex"; "launch"; "rocket"; "falcon"; "dragon"].
Definition weather_keywords : list string :=
  ["weather"; "temperature"; "rain"; "storm"; "delay"].
Definition news_keywords : list string :=
  ["news"; "article"; "report"; "update"].
Definition crypto_keywords : list string :=
  ["bitcoin"; "crypto"; "btc"; "eth"; "price"].
Definition summary_keywords : list string :=
  ["summarize"; "summary"; "conclude"].

Definition _analyze_goal (goal_text : string) : list string :=
  let plan : list string := [] in
  let plan :=
    if any_keyword_in spacex_keywords goal_text
    then plan ++ ["SpaceXAgent"] else plan in
  let plan :=
    if any_keyword_in weather_keywords goal_text
    then plan ++ ["WeatherAgent"] else plan in
  let plan :=
    if any_keyword_in news_keywords goal_text
    then plan ++ ["NewsAgent"] else plan in
  let plan :=
    if any_keyword_in crypto_keywords goal_text
    then plan ++ ["CryptoAgent"] else plan in
  let plan :=
    if (1 <? length plan)%nat || any_keyword_in summary_keywords goal_text
    then plan ++ ["SummarizeAgent"] else plan in
  match plan with
  | [] => ["NewsAgent"; "SummarizeAgent"]
  | _ :: _ => plan
  end.

(** [input_data.get("goal", "").lower()]: the default is the empty
    string; a value that is not a [str] has no [lower] method. *)
Definition goal_text_of (input_data : gmap string Value) : Outcome string :=
  match input_data !! "goal" with
  | None => Returned (lower "")
  | Some (VStr s) => Returned (lower s)
  | Some _ => Raised
  end.

Definition execute : Agent := fun input_data =>
  match goal_text_of input_data with
  | Raised => Raised
  | Returned goal_text =>
      let plan := _analyze_goal goal_text in
      Returned {|
        agent_name := "Planner";
        success := true;
        data := {[ "plan" := VNames plan;
                   "original_goal" := default VNone (input_data !! "goal") ]};
        message := "Created execution plan with " +:+ pretty (length plan) +:+ " steps";
        next_agent := head plan
      |}
  end.

End PlannerAgent.

(** ** The orchestrator *)

(** The five agents that talk to the outside world ([SpaceXAgent],
    [WeatherAgent], [NewsAgent], [CryptoAgent], [SummarizeAgent]), each
    given by its [execute] method, which returns a result or raises. *)
Record Collaborators : Type := mkCollaborators {
  SpaceXAgent_execute : Agent;
  WeatherAgent_execute : Agent;
  NewsAgent_execute : Agent;
  CryptoAgent_execute : Agent;
  SummarizeAgent_execute : Agent
}.

(** The local variables of [execute_goal] that live across iterations. *)
Record LoopState : Type := mkLoopState {
  goal : Goal;
  current_data : gmap string Value;
  current_agent : option string;
  iteration : Z
}.

(** How one pass through the body of the [while] loop ends. *)
Inductive Flow : Type :=
| Break (st : LoopState)
| Continue (st : LoopState)
| Raise.

(** Python truthiness of [current_agent]: neither [None] nor [""]. *)
Definition truthy (current_agent : option string) : bool :=
  match current_agent with
  | Some name => negb (String.eqb name "")
  | None => false
  end.

(** The list of names held by the value stored under ["plan"]. The
    loop reads that value from the planner's result only, where
    [PlannerAgent.execute] always puts a list of names. *)
Definition names_of (v : Value) : list string :=
  match v with
  | VNames l => l
  | _ => []
  end.

(** A Python number: an [int] or a [float]. *)
Inductive Number : Type :=
| PyInt (z : Z)
| PyFloat (f : float).

(** The [float] of a count; exact below 2^53. *)
Definition float_of_nat (n : nat) : float :=
  PrimFloat.of_uint63 (Uint63.of_Z (Z.of_nat n)).

(** [a / b] on two counts: [ZeroDivisionError] when [b] is zero, else
    the binary64 quotient. *)
Definition truediv (a b : nat) : Outcome float :=
  match b with
  | O => Raised
  | S _ => Returned (float_of_nat a / float_of_nat b)%float
  end.

(** The dictionary built by [evaluate_goal_satisfaction], one field per
    key. *)
Record Evaluation : Type := mkEvaluation {
  goal_satisfied : bool;
  total_agents_executed : nat;
  successful_agents : nat;
  failed_agents : nat;
  agent_trajectory : list string;
  final_result : option AgentResult;
  satisfaction_score : Number
}.

Module MultiAgentSystem.

(** [self.agents] as [__init__] builds it. *)
Definition __init__ (ext : Collaborators) : gmap string Agent :=
  {[ "PlannerAgent" := PlannerAgent.execute;
     "SpaceXAgent" := SpaceXAgent_execute ext;
     "WeatherAgent" := WeatherAgent_execute ext;
     "NewsAgent" := NewsAgent_execute ext;
     "CryptoAgent" := CryptoAgent_execute ext;
     "SummarizeAgent" := SummarizeAgent_execute ext ]}.

(** [current_data.update(result.data)] *)
Definition update (current_data new_data : gmap string Value) : gmap string Value :=
  new_data ∪ current_data.

(** The body of the [while] loop, entered with [current_agent = name]. *)
Definition loop_body (agents : gmap string Agent) (name : string)
    (st : LoopState) : Flow :=
  let iteration := (iteration st + 1)%Z in
  match agents !! name with
  | None => Break (mkLoopState (goal st) (current_data st) (Some name) iteration)
  | Some agent =>
      match agent (current_data st) with
      | Raised => Raise
      | Returned result =>
          let g := goal st in
          let g := mkGoal (description g) (plan g) (current_step g)
                          (results g ++ [result]) (is_complete g) in
          if negb (success result)
          then Break (mkLoopState g (current_data st) (Some name) iteration)
          else
            let current_data := update (current_data st) (data result) in
            match decide (name = "PlannerAgent"), data result !! "plan" with
            | left _, Some v =>
                let g := mkGoal (description g) (names_of v) (current_step g)
                                (results g) (is_complete g) in
                Continue (mkLoopState g current_data (head (plan g)) iteration)
            | _, _ =>
                if negb (bool_decide (plan g = []))
                   && (current_step g <? length (plan g) - 1)%nat
                then
                  let g := mkGoal (description g) (plan g) (current_step g + 1)
                                  (results g) (is_complete g) in
                  Continue (mkLoopState g current_data
                              (plan g !! current_step g) iteration)
                else Continue (mkLoopState g current_data None iteration)
            end
      end
  end.

(** The test of the [while] loop. *)
Definition loop_cond (max_iterations : Z) (st : LoopState) : bool :=
  truthy (current_agent st) && (iteration st <? max_iterations)%Z.

(** [while current_agent and iteration < max_iterations: ...]. The
    result is [None] when [fuel] passes do not reach the exit. *)
Fixpoint while_loop (fuel : nat) (agents : gmap string Agent)
    (max_iterations : Z) (st : LoopState) : option (Outcome LoopState) :=
  match current_agent st with
  | Some name =>
      if loop_cond max_iterations st
      then
        match fuel with
        | O => None
        | S fuel' =>
            match loop_body agents name st with
            | Break st' => Some (Returned st')
            | Continue st' => while_loop fuel' agents max_iterations st'
            | Raise => Some Raised
            end
        end
      else Some (Returned st)
  | None => Some (Returned st)
  end.

(** The state in which [execute_goal] enters its loop. *)
Definition initial (goal_description : string) : LoopState :=
  {| goal := mkGoal goal_description [] 0 [] false;
     current_data := {[ "goal" := VStr goal_description ]};
     current_agent := Some "PlannerAgent";
     iteration := 0 |}.

(** What follows the loop: [goal.is_complete = current_agent is None]. *)
Definition finish (st : LoopState) : Goal :=
  let g := goal st in
  mkGoal (description g) (plan g) (current_step g) (results g)
         (bool_decide (current_agent st = None)).

Definition execute_goal_fuel (fuel : nat) (agents : gmap string Agent)
    (goal_description : string) (max_iterations : Z) : option (Outcome Goal) :=
  match while_loop fuel agents max_iterations (initial goal_description) with
  | None => None
  | Some Raised => Some Raised
  | Some (Returned st) => Some (Returned (finish st))
  end.

(** The loop body runs at most [max_iterations] times, so that much
    fuel is enough (lemma [execute_goal_fuel_enough]). *)
Definition execute_goal (agents : gmap string Agent)
    (goal_description : string) (max_iterations : Z) : option (Outcome Goal) :=
  execute_goal_fuel (Z.to_nat max_iterations) agents goal_description max_iterations.

Definition default_max_iterations : Z := 10.

(** [sum(1 for r in results if keep(r))] *)
Definition count_if (keep : AgentResult -> bool) (results : list AgentResult) : nat :=
  sum_list (map (fun _ => 1) (List.filter keep results)).

Definition evaluate_goal_satisfaction (goal : Goal) : Outcome Evaluation :=
  let goal_satisfied := is_complete goal in
  let total_agents_executed := length (results goal) in
  let successful_agents := count_if success (results goal) in
  let failed_agents := count_if (fun r => negb (success r)) (results goal) in
  let agent_trajectory := map agent_name (results goal) in
  let final_result := last (results goal) in
  let evaluation :=
    mkEvaluation goal_satisfied total_agents_executed successful_agents
                 failed_agents agent_trajectory final_result in
  match results goal with
  | _ :: _ =>
      match truediv successful_agents total_agents_executed with
      | Raised => Raised
      | Returned success_rate =>
          Returned (evaluation (PyFloat (success_rate * 100)%float))
      end
  | [] => Returned (evaluation (PyInt 0))
  end.

End MultiAgentSystem.

(** ** Auxiliary definitions for the statements *)

(** The plan the planner stores for a goal description: the value under
    ["plan"] in the data of [PlannerAgent.execute({"goal": description})]. *)
Definition plan_for (goal_description : string) : list string :=
  match PlannerAgent.execute {[ "goal" := VStr goal_description ]} with
  | Returned result => names_of (default VNone (data result !! "plan"))
  | Raised => []
  end.

(** Following the specification's words: one row per domain, in the
    fixed priority order launch, weather, news, market. *)
Definition domain_table : list (list string * string) :=
  [ (PlannerAgent.spacex_keywords, "SpaceXAgent");
    (PlannerAgent.weather_keywords, "WeatherAgent");
    (PlannerAgent.news_keywords, "NewsAgent");
    (PlannerAgent.crypto_keywords, "CryptoAgent") ].

(** Following the specification's words: the handlers of the domains
    whose keyword set meets the lower-cased goal text, in table order. *)
Definition matched_handlers (goal_description : string) : list string :=
  map snd (List.filter (fun row => any_keyword_in (fst row) (lower goal_description))
                       domain_table).

(** [keywords] meets the lower-cased goal text, as the planner tests it. *)
Definition matches (keywords : list string) (goal_description : string) : bool :=
  any_keyword_in keywords (lower goal_description).

(** The goal text matches none of the four domain keyword sets. *)
Definition no_domain_matches (goal_description : string) : Prop :=
  matches PlannerAgent.spacex_keywords goal_description = false /\
  matches PlannerAgent.weather_keywords goal_description = false /\
  matches PlannerAgent.news_keywords goal_description = false /\
  matches PlannerAgent.crypto_keywords goal_description = false.

(** The names a plan is made of. *)
Definition handler_names : list string :=
  ["SpaceXAgent"; "WeatherAgent"; "NewsAgent"; "CryptoAgent"; "SummarizeAgent"].

(** The states a run goes through, seen after each pass of the loop
    body: [point ... true st] when [st] is met at the head of the loop,
    [point ... false st] when [st] is left by a [break]. Within one pass
    the plan and the cursor are each assigned at most once, so these are
    all the values they take. *)
Inductive point (agents : gmap string Agent) (max_iterations : Z)
    (goal_description : string) : bool -> LoopState -> Prop :=
| point_initial :
    point agents max_iterations goal_description true
          (MultiAgentSystem.initial goal_description)
| point_continue (st st' : LoopState) (name : string) :
    point agents max_iterations goal_description true st ->
    current_agent st = Some name ->
    MultiAgentSystem.loop_cond max_iterations st = true ->
    MultiAgentSystem.loop_body agents name st = Continue st' ->
    point agents max_iterations goal_description true st'
| point_break (st st' : LoopState) (name : string) :
    point agents max_iterations goal_description true st ->
    current_agent st = Some name ->
    MultiAgentSystem.loop_cond max_iterations st = true ->
    MultiAgentSystem.loop_body agents name st = Break st' ->
    point agents max_iterations goal_description false st'.

(** [result] is what the agent registered under [name] returned on some
    context. *)
Definition produced_by (agents : gmap string Agent) (name : string)
    (result : AgentResult) : Prop :=
  exists (agent : Agent) (d : gmap string Value),
    agents !! name = Some agent /\ agent d = Returned result.

(** The records of a history come, in order, from the planner and then
    from the agents of the plan. *)
Definition aligned (agents : gmap string Agent) (names : list string)
    (history : list AgentResult) : Prop :=
  Forall2 (produced_by agents) (take (length history) ("PlannerAgent" :: names)) history.

Definition succeeded (result : AgentResult) : Prop := success result = true.

(** The run reached the end of its plan: the planner and every agent of
    the plan were invoked and each reported success. *)
Definition plan_completed (g : Goal) : Prop :=
  Forall succeeded (results g) /\ length (results g) = S (length (plan g)).

(** The record [PlannerAgent.execute] returns for a goal description. *)
Definition planner_result (goal_description : string) : AgentResult :=
  let plan := PlannerAgent._analyze_goal (lower goal_description) in
  {| agent_name := "Planner";
     success := true;
     data := {[ "plan" := VNames plan; "original_goal" := VStr goal_description ]};
     message := "Created execution plan with " +:+ pretty (length plan) +:+ " steps";
     next_agent := head plan |}.

(** The form of the loop state at the points of a run of the system
    built by [__init__]: before the planner has run; while the plan is
    being walked; once the plan is exhausted; after a failed agent. *)
Inductive Shape (ext : Collaborators) (goal_description : string) :
    bool -> LoopState -> Prop :=
| shape_start :
    Shape ext goal_description true (MultiAgentSystem.initial goal_description)
| shape_running (g : Goal) (d : gmap string Value) (name : string) (i : Z) :
    plan g = plan_for goal_description ->
    Forall succeeded (results g) ->
    aligned (MultiAgentSystem.__init__ ext) (plan g) (results g) ->
    plan g !! current_step g = Some name ->
    length (results g) = S (current_step g) ->
    i = Z.of_nat (length (results g)) ->
    Shape ext goal_description true (mkLoopState g d (Some name) i)
| shape_completed (g : Goal) (d : gmap string Value) (i : Z) :
    plan g = plan_for goal_description ->
    Forall succeeded (results g) ->
    aligned (MultiAgentSystem.__init__ ext) (plan g) (results g) ->
    S (current_step g) = length (plan g) ->
    length (results g) = S (length (plan g)) ->
    i = Z.of_nat (length (results g)) ->
    Shape ext goal_description true (mkLoopState g d None i)
| shape_failed (g : Goal) (d : gmap string Value) (name : string) (i : Z)
    (rs : list AgentResult) (r : AgentResult) :
    plan g = plan_for goal_description ->
    results g = rs ++ [r] ->
    success r = false ->
    Forall succeeded rs ->
    aligned (MultiAgentSystem.__init__ ext) (plan g) (results g) ->
    produced_by (MultiAgentSystem.__init__ ext) name r ->
    plan g !! current_step g = Some name ->
    length (results g) = S (S (current_step g)) ->
    i = Z.of_nat (length (results g)) ->
    Shape ext goal_description false (mkLoopState g d (Some name) i).

(** Sample collaborators for the concrete runs below: an agent that
    stores one key and reports the given outcome. *)
Definition sample_agent (name : string) (ok : bool) :
    gmap string Value -> AgentResult :=
  fun _ => mkAgentResult name ok {[ name := VInt 1 ]} "done" None.

(** An agent that never raises. *)
Definition returning (f : gmap string Value -> AgentResult) : Agent :=
  fun d => Returned (f d).

Definition all_succeed : Collaborators :=
  mkCollaborators (returning (sample_agent "SpaceX" true))
                  (returning (sample_agent "Weather" true))
                  (returning (sample_agent "News" true))
                  (returning (sample_agent "Crypto" true))
                  (returning (sample_agent "Summarize" true)).

Definition weather_fails : Collaborators :=
  mkCollaborators (returning (sample_agent "SpaceX" true))
                  (returning (sample_agent "Weather" false))
                  (returning (sample_agent "News" true))
                  (returning (sample_agent "Crypto" true))
                  (returning (sample_agent "Summarize" true)).

(** As [all_succeed], but the summarizer raises, as it does while
    logging a context that holds itself. *)
Definition summarize_raises : Collaborators :=
  mkCollaborators (returning (sample_agent "SpaceX" true))
                  (returning (sample_agent "Weather" true))
                  (returning (sample_agent "News" true))
                  (returning (sample_agent "Crypto" true))
                  (fun _ => Raised).

(** An agent that returns on every context, and collaborators that all
    do. *)
Definition never_raises (a : Agent) : Prop :=
  forall d : gmap string Value, a d <> Raised.

Definition all_return (ext : Collaborators) : Prop :=
  never_raises (SpaceXAgent_execute ext) /\
  never_raises (WeatherAgent_execute ext) /\
  never_raises (NewsAgent_execute ext) /\
  never_raises (CryptoAgent_execute ext) /\
  never_raises (SummarizeAgent_execute ext).

(** The first example goal of [main]; its plan has three steps. *)
Definition launch_goal : string :=
  "Find the next SpaceX launch, check weather at that location, then summarize if it may be delayed".

(** A goal with three records, two of them successful. *)
Definition two_of_three : Goal :=
  mkGoal "sample" ["SpaceXAgent"; "WeatherAgent"; "SummarizeAgent"] 1
         [planner_result "sample"; sample_agent "SpaceX" true ∅;
          sample_agent "Weather" false ∅]
         false.

(** ** Definitions for the further properties *)

(** A registry that holds the planner and nothing else. *)
Definition planner_only : gmap string Agent :=
  {[ "PlannerAgent" := PlannerAgent.execute ]}.

(** Two results that agree on what the loop reads: the success flag and
    the data. The name of the agent, the message and the suggested next
    agent may differ. *)
Definition same_outcome (r r' : AgentResult) : Prop :=
  success r = success r' /\ data r = data r'.

(** Two agents that on every context both raise or return results with
    the same outcome. *)
Definition same_agent (a a' : Agent) : Prop :=
  forall d : gmap string Value,
    match a d, a' d with
    | Raised, Raised => True
    | Returned r, Returned r' => same_outcome r r'
    | _, _ => False
    end.

(** Two registries that hold the same names, with agents of the same
    outcomes. *)
Definition same_registry (agents agents' : gmap string Agent) : Prop :=
  forall name : string,
    match agents !! name, agents' !! name with
    | None, None => True
    | Some a, Some a' => same_agent a a'
    | _, _ => False
    end.

Definition same_collaborators (ext ext' : Collaborators) : Prop :=
  same_agent (SpaceXAgent_execute ext) (SpaceXAgent_execute ext') /\
  same_agent (WeatherAgent_execute ext) (WeatherAgent_execute ext') /\
  same_agent (NewsAgent_execute ext) (NewsAgent_execute ext') /\
  same_agent (CryptoAgent_execute ext) (CryptoAgent_execute ext') /\
  same_agent (SummarizeAgent_execute ext) (SummarizeAgent_execute ext').

(** Two goals that differ at most in the names, messages and hints of
    their records. *)
Definition same_goal (g g' : Goal) : Prop :=
  description g = description g' /\
  plan g = plan g' /\
  current_step g = current_step g' /\
  is_complete g = is_complete g' /\
  Forall2 same_outcome (results g) (results g').

Definition same_state (st st' : LoopState) : Prop :=
  same_goal (goal st) (goal st') /\
  current_data st = current_data st' /\
  current_agent st = current_agent st' /\
  iteration st = iteration st'.

(** Collaborators that behave as [all_succeed] but suggest the planner
    as the next agent and carry other names and messages. *)
Definition misleading_agent (ok : bool) (key : string) :
    gmap string Value -> AgentResult :=
  fun _ => mkAgentResult "?" ok {[ key := VInt 1 ]} "see next_agent" (Some "PlannerAgent").

Definition misleading : Collaborators :=
  mkCollaborators (returning (misleading_agent true "SpaceX"))
                  (returning (misleading_agent true "Weather"))
                  (returning (misleading_agent true "News"))
                  (returning (misleading_agent true "Crypto"))
                  (returning (misleading_agent true "Summarize")).

(** ** The weather agent *)

(** A JSON document as the weather service returns it and as
    [_get_mock_weather_data] builds it. Numbers are integers or binary64
    floats. *)
Inductive Json : Type :=
| JNull
| JBool (b : bool)
| JInt (z : Z)
| JFloat (f : float)
| JStr (s : string)
| JArr (l : list Json)
| JObj (d : gmap string Json).

(** The dictionary returned by [_analyze_weather_for_launch], one field
    per key. *)
Record Analysis : Type := mkAnalysis {
  recommendation : string;
  risk_level : string;
  issues : list string;
  analysis : string
}.

(** Sequencing of calls that may raise. *)
Definition and_then {A B : Type} (o : Outcome A) (k : A -> Outcome B) : Outcome B :=
  match o with
  | Raised => Raised
  | Returned a => k a
  end.

Notation "'let*' x ':=' o 'in' k" := (and_then o (fun x => k))
  (at level 10, x name, o at level 200, k at level 200).

(** [v[0]]: the first element of a list, the first character of a
    string; [IndexError] when empty; [KeyError] on a dictionary, whose
    keys are strings; [TypeError] on the other values. *)
Definition subscript0 (v : Json) : Outcome Json :=
  match v with
  | JArr (x :: _) => Returned x
  | JStr (String c _) => Returned (JStr (String c EmptyString))
  | _ => Raised
  end.

(** [v.get(key, dflt)]: only a dictionary has the method. *)
Definition get_method (v : Json) (key : string) (dflt : Json) : Outcome Json :=
  match v with
  | JObj d => Returned (default dflt (d !! key))
  | _ => Raised
  end.

(** [v.lower()]: only a string has the method. *)
Definition lower_method (v : Json) : Outcome string :=
  match v with
  | JStr s => Returned (lower s)
  | _ => Raised
  end.

(** The float of a small integer constant (exact below 2^53). *)
Definition float_of_Z (n : Z) : float := PrimFloat.of_uint63 (Uint63.of_Z n).

(** [v > n] for an integer constant [n]: defined between numbers
    ([bool] counts as 0 or 1; a float that is not a number compares
    false); [TypeError] on the other values. *)
Definition gt_int (v : Json) (n : Z) : Outcome bool :=
  match v with
  | JBool b => Returned (n <? Z.b2z b)%Z
  | JInt z => Returned (n <? z)%Z
  | JFloat f => Returned (PrimFloat.ltb (float_of_Z n) f)
  | _ => Raised
  end.

(** [v < n] for an integer constant [n]. *)
Definition lt_int (v : Json) (n : Z) : Outcome bool :=
  match v with
  | JBool b => Returned (Z.b2z b <? n)%Z
  | JInt z => Returned (z <? n)%Z
  | JFloat f => Returned (PrimFloat.ltb f (float_of_Z n))
  | _ => Raised
  end.

Module WeatherAgent.

(** [_extract_location]: the "location" of the "launchpad" dictionary of
    the context, "Cape Canaveral" when either is missing. The items of a
    [VDict] are looked up from the front. *)
Definition _extract_location (input_data : gmap string Value) : Outcome Value :=
  match input_data !! "launchpad" with
  | Some (VDict d) =>
      Returned (default (VStr "Cape Canaveral")
                        (snd <$> List.find (fun kv => String.eqb (fst kv) "location") d))
  | Some _ => Raised
  | None => Returned (VStr "Cape Canaveral")
  end.

Definition _get_mock_weather_data : gmap string Json :=
  {[ "weather" := JArr [JObj {[ "main" := JStr "Clear";
                                "description" := JStr "clear sky" ]}];
     "main" := JObj {[ "temp" := JInt 25; "humidity" := JInt 60;
                       "pressure" := JInt 1013 ]};
     "wind" := JObj {[ "speed" := JFloat 0x1.4cccccccccccdp+2; "deg" := JInt 180 ]};
     "visibility" := JInt 10000;
     "name" := JStr "Cape Canaveral" ]}.

(** [_analyze_weather_for_launch]. The two messages that quote a reading
    format it with Python's [str], which is the parameter [py_str]. *)
Definition _analyze_weather_for_launch (py_str : Json -> string)
    (weather_data : gmap string Json) : Outcome Analysis :=
  let* first := subscript0 (default (JArr [JObj ∅]) (weather_data !! "weather")) in
  let* main := get_method first "main" (JStr "") in
  let* main_weather := lower_method main in
  let* wind_speed :=
    get_method (default (JObj ∅) (weather_data !! "wind")) "speed" (JInt 0) in
  let visibility := default (JInt 10000) (weather_data !! "visibility") in
  let issues : list string := [] in
  let issues :=
    if contains "rain" main_weather || contains "storm" main_weather
    then issues ++ ["Precipitation detected"] else issues in
  let* windy := gt_int wind_speed 15 in
  let issues :=
    if windy
    then issues ++ ["High wind speeds: " +:+ py_str wind_speed +:+ " m/s"]
    else issues in
  let* dim := lt_int visibility 5000 in
  let issues :=
    if dim
    then issues ++ ["Poor visibility: " +:+ py_str visibility +:+ "m"]
    else issues in
  let verdict :=
    match issues with
    | [] => ("FAVORABLE", "LOW")
    | [_] => ("CAUTION", "MEDIUM")
    | _ => ("UNFAVORABLE", "HIGH")
    end in
  Returned {| recommendation := fst verdict;
              risk_level := snd verdict;
              issues := issues;
              analysis := "Weather conditions are " +:+ lower (fst verdict)
                          +:+ " for launch" |}.

End WeatherAgent.

(** A number, as [>] and [<] accept it against an integer. *)
Definition is_number (v : Json) : bool :=
  match v with
  | JBool _ | JInt _ | JFloat _ => true
  | _ => false
  end.

(** The documents [_analyze_weather_for_launch] can read: "weather",
    when present, is a list that starts with a dictionary whose "main",
    when present, is a string; "wind", when present, is a dictionary
    whose "speed", when present, is a number; "visibility", when
    present, is a number. *)
Definition readable (weather_data : gmap string Json) : bool :=
  match default (JArr [JObj ∅]) (weather_data !! "weather") with
  | JArr (JObj first :: _) =>
      match default (JStr "") (first !! "main") with
      | JStr _ => true
      | _ => false
      end
  | _ => false
  end
  && match default (JObj ∅) (weather_data !! "wind") with
     | JObj wind => is_number (default (JInt 0) (wind !! "speed"))
     | _ => false
     end
  && is_number (default (JInt 10000) (weather_data !! "visibility")).

(** A sample report: rain, wind of 20 m/s, visibility of 8 km. *)
Definition stormy_report : gmap string Json :=
  {[ "weather" := JArr [JObj {[ "main" := JStr "Rain" ]}];
     "wind" := JObj {[ "speed" := JInt 20 ]};
     "visibility" := JInt 8000 ]}.

(** ** Facts about strings *)

Lemma append_cons (x : ascii) (a b : string) :
  String x a +:+ b = String x (a +:+ b).
Proof. reflexivity. Qed.

Lemma append_assoc (a b c : string) : (a +:+ b) +:+ c = a +:+ (b +:+ c).
Proof.
  induction a as [|x a IH]; [reflexivity|].
  rewrite !append_cons. f_equal. exact IH.
Qed.

Lemma lower_append (a b : string) : lower (a +:+ b) = lower a +:+ lower b.
Proof.
  induction a as [|x a IH]; [reflexivity|].
  rewrite append_cons. simpl. rewrite append_cons. f_equal. exact IH.
Qed.

Lemma prefix_append (kw b : string) : String.prefix kw (kw +:+ b) = true.
Proof.
  induction kw as [|x kw IH].
  - now destruct b.
  - rewrite append_cons. simpl.
    destruct (ascii_dec x x) as [_|Hne]; [exact IH | now destruct Hne].
Qed.

Lemma prefix_inv (kw s : string) :
  String.prefix kw s = true -> exists b, s = kw +:+ b.
Proof.
  revert s. induction kw as [|x kw IH]; intros s H.
  - now exists s.
  - destruct s as [|y s]; simpl in H; [discriminate|].
    destruct (ascii_dec x y) as [->|]; [|discriminate].
    destruct (IH s H) as [b ->]. now exists b.
Qed.

Lemma contains_unfold (kw s : string) :
  contains kw s
  = String.prefix kw s
    || match s with EmptyString => false | String _ s' => contains kw s' end.
Proof. destruct s; reflexivity. Qed.

Lemma contains_append (a kw b : string) : contains kw (a +:+ kw +:+ b) = true.
Proof.
  induction a as [|x a IH].
  - change (contains kw (kw +:+ b) = true).
    rewrite contains_unfold, prefix_append. reflexivity.
  - rewrite append_cons, contains_unfold, IH. apply orb_true_r.
Qed.

Lemma contains_inv (kw s : string) :
  contains kw s = true -> exists a b, s = a +:+ kw +:+ b.
Proof.
  induction s as [|x s IH]; rewrite contains_unfold; intros H.
  - rewrite orb_false_r in H. destruct (prefix_inv _ _ H) as [b Hb].
    now exists EmptyString, b.
  - apply orb_true_iff in H as [H|H].
    + destruct (prefix_inv _ _ H) as [b Hb]. now exists EmptyString, b.
    + destruct (IH H) as (a & b & ->). now exists (String x a), b.
Qed.

(** [kw in s] holds exactly when [s] splits around an occurrence of [kw]. *)
Lemma contains_spec (kw s : string) :
  contains kw s = true <-> exists a b, s = a +:+ kw +:+ b.
Proof.
  split; [apply contains_inv|]. intros (a & b & ->). apply contains_append.
Qed.

(** An occurrence of a longer word is an occurrence of each of its parts. *)
Lemma contains_longer (kw pre post s : string) :
  contains (pre +:+ kw +:+ post) s = true -> contains kw s = true.
Proof.
  intros H. apply contains_inv in H as (a & b & ->).
  rewrite !append_assoc, <- (append_assoc a pre).
  apply contains_append.
Qed.

Lemma any_keyword_in_intro (keywords : list string) (kw s : string) :
  In kw keywords -> contains kw s = true -> any_keyword_in keywords s = true.
Proof. intros Hin Hc. apply existsb_exists. now exists kw. Qed.

(** ** Facts about the planner *)

Lemma plan_for_eq (goal_description : string) :
  plan_for goal_description = PlannerAgent._analyze_goal (lower goal_description).
Proof. reflexivity. Qed.

Lemma analyze_goal_nonempty (t : string) : PlannerAgent._analyze_goal t <> [].
Proof.
  unfold PlannerAgent._analyze_goal.
  destruct (any_keyword_in PlannerAgent.spacex_keywords t);
  destruct (any_keyword_in PlannerAgent.weather_keywords t);
  destruct (any_keyword_in PlannerAgent.news_keywords t);
  destruct (any_keyword_in PlannerAgent.crypto_keywords t);
  destruct (any_keyword_in PlannerAgent.summary_keywords t);
  simpl; discriminate.
Qed.

Lemma analyze_goal_names (t : string) :
  Forall (fun name => In name handler_names) (PlannerAgent._analyze_goal t).
Proof.
  unfold PlannerAgent._analyze_goal, handler_names.
  destruct (any_keyword_in PlannerAgent.spacex_keywords t);
  destruct (any_keyword_in PlannerAgent.weather_keywords t);
  destruct (any_keyword_in PlannerAgent.news_keywords t);
  destruct (any_keyword_in PlannerAgent.crypto_keywords t);
  destruct (any_keyword_in PlannerAgent.summary_keywords t);
  simpl; repeat match goal with |- Forall _ _ => constructor end; simpl; auto 10.
Qed.

(** A keyword found in the lower-cased text puts its domain's handler
    in the plan. *)
Lemma keyword_selects_handler (goal_description kw handler : string)
    (keywords : list string) :
  In (keywords, handler) domain_table ->
  In kw keywords ->
  contains kw (lower goal_description) = true ->
  In handler (plan_for goal_description).
Proof.
  intros Hrow Hkw Hc.
  pose proof (any_keyword_in_intro _ _ _ Hkw Hc) as Hany.
  simpl in Hrow.
  destruct Hrow as [[= <- <-]|[[= <- <-]|[[= <- <-]|[[= <- <-]|[]]]]];
    rewrite plan_for_eq; unfold PlannerAgent._analyze_goal; rewrite Hany;
    destruct (any_keyword_in PlannerAgent.spacex_keywords (lower goal_description));
    destruct (any_keyword_in PlannerAgent.weather_keywords (lower goal_description));
    destruct (any_keyword_in PlannerAgent.news_keywords (lower goal_description));
    destruct (any_keyword_in PlannerAgent.crypto_keywords (lower goal_description));
    destruct (any_keyword_in PlannerAgent.summary_keywords (lower goal_description));
    simpl; auto 10.
Qed.

(** C4, with the summarization keywords accounted for: when the goal text matches none of the four domain
    keyword sets, the plan is the default [news, summarize] provided the
    text holds no summarization keyword either, and is [summarize] alone
    when it does; the plan for "hello" is the default; no plan is empty. *)
Theorem C4_fallback_plan :
  (forall goal_description : string,
     no_domain_matches goal_description ->
     plan_for goal_description
     = if matches PlannerAgent.summary_keywords goal_description
       then ["SummarizeAgent"]
       else ["NewsAgent"; "SummarizeAgent"]) /\
  (forall goal_description : string, plan_for goal_description <> []) /\
  plan_for "hello" = ["NewsAgent"; "SummarizeAgent"].
Proof.
  split; [|split].
  - intros t (H1 & H2 & H3 & H4). unfold matches in *.
    rewrite plan_for_eq. unfold PlannerAgent._analyze_goal.
    rewrite H1, H2, H3, H4.
    destruct (any_keyword_in PlannerAgent.summary_keywords (lower t)); reflexivity.
  - intros t. rewrite plan_for_eq. apply analyze_goal_nonempty.
  - reflexivity.
Qed.

(** C4 as the specification words it fails on the text "summarize": no
    domain keyword occurs in it, yet its plan is not the default one. *)
Lemma C4_counterexample :
  no_domain_matches "summarize" /\
  plan_for "summarize" = ["SummarizeAgent"] /\
  plan_for "summarize" <> ["NewsAgent"; "SummarizeAgent"].
Proof. repeat split; discriminate. Qed.

Lemma C4_fallback_plan_witness :
  no_domain_matches "what is up" /\
  plan_for "what is up" = ["NewsAgent"; "SummarizeAgent"].
Proof.
  split.
  - repeat split.
  - exact (proj1 C4_fallback_plan "what is up" (conj eq_refl (conj eq_refl (conj eq_refl eq_refl)))).
Defined.

(** The priority order of the domain handlers. *)
Lemma matched_handlers_priority (goal_description : string) :
  sublist (matched_handlers goal_description)
          ["SpaceXAgent"; "WeatherAgent"; "NewsAgent"; "CryptoAgent"].
Proof.
  unfold matched_handlers. cbv [domain_table List.filter map fst snd].
  destruct (any_keyword_in PlannerAgent.spacex_keywords (lower goal_description));
  destruct (any_keyword_in PlannerAgent.weather_keywords (lower goal_description));
  destruct (any_keyword_in PlannerAgent.news_keywords (lower goal_description));
  destruct (any_keyword_in PlannerAgent.crypto_keywords (lower goal_description));
  repeat first [apply sublist_nil | apply sublist_skip | apply sublist_cons].
Qed.

Lemma plan_for_matched (goal_description : string) :
  2 <= length (matched_handlers goal_description) ->
  plan_for goal_description = matched_handlers goal_description ++ ["SummarizeAgent"].
Proof.
  rewrite plan_for_eq.
  unfold matched_handlers, PlannerAgent._analyze_goal.
  cbv [domain_table List.filter map fst snd].
  destruct (any_keyword_in PlannerAgent.spacex_keywords (lower goal_description));
  destruct (any_keyword_in PlannerAgent.weather_keywords (lower goal_description));
  destruct (any_keyword_in PlannerAgent.news_keywords (lower goal_description));
  destruct (any_keyword_in PlannerAgent.crypto_keywords (lower goal_description));
  cbn [length app Nat.ltb Nat.leb orb]; intros Hlen;
  first [reflexivity | exfalso; lia].
Qed.

Lemma any_keyword_in_ext (keywords : list string) (s t : string) :
  (forall kw, contains kw s = contains kw t) ->
  any_keyword_in keywords s = any_keyword_in keywords t.
Proof.
  intros H. unfold any_keyword_in.
  induction keywords as [|kw l IH]; simpl; [reflexivity|].
  now rewrite H, IH.
Qed.

(** C5: when two or more domains match, the plan is the matched domain
    handlers in the order launch, weather, news, market, followed by the
    summarize handler; the plan depends only on which keywords occur,
    not on where; and the plan for "check bitcoin price and get related
    news" is [news, market, summarize]. *)
Theorem C5_priority_order :
  (forall goal_description : string,
     2 <= length (matched_handlers goal_description) ->
     plan_for goal_description
     = matched_handlers goal_description ++ ["SummarizeAgent"]) /\
  (forall goal_description : string,
     sublist (matched_handlers goal_description)
             ["SpaceXAgent"; "WeatherAgent"; "NewsAgent"; "CryptoAgent"]) /\
  (forall t1 t2 : string,
     (forall kw, contains kw (lower t1) = contains kw (lower t2)) ->
     plan_for t1 = plan_for t2) /\
  plan_for "check bitcoin price and get related news"
  = ["NewsAgent"; "CryptoAgent"; "SummarizeAgent"].
Proof.
  split; [exact plan_for_matched|].
  split; [exact matched_handlers_priority|].
  split; [|reflexivity].
  intros t1 t2 H. rewrite !plan_for_eq. unfold PlannerAgent._analyze_goal.
  rewrite !(any_keyword_in_ext _ (lower t1) (lower t2) H). reflexivity.
Qed.

Lemma C5_priority_order_witness :
  2 <= length (matched_handlers "bitcoin weather") /\
  plan_for "bitcoin weather" = ["WeatherAgent"; "CryptoAgent"; "SummarizeAgent"].
Proof.
  assert (2 <= length (matched_handlers "bitcoin weather")) as H
    by (vm_compute; lia).
  split; [exact H|].
  exact (proj1 C5_priority_order "bitcoin weather" H).
Defined.

(** C10: a keyword matches wherever it occurs in the lower-cased text,
    also inside a longer word: then its domain's handler is in the plan.
    Every text containing "delayed" selects the weather handler (through
    "delay") and every text containing "updated" the news handler
    (through "update"). *)
Theorem C10_substring_matching :
  (forall (goal_description kw handler a b : string) (keywords : list string),
     In (keywords, handler) domain_table ->
     In kw keywords ->
     lower goal_description = a +:+ kw +:+ b ->
     In handler (plan_for goal_description)) /\
  (forall a b : string, In "WeatherAgent" (plan_for (a +:+ "delayed" +:+ b))) /\
  (forall a b : string, In "NewsAgent" (plan_for (a +:+ "updated" +:+ b))).
Proof.
  split; [|split].
  - intros t kw handler a b keywords Hrow Hkw Ht.
    apply (keyword_selects_handler t kw handler keywords Hrow Hkw).
    rewrite Ht. apply contains_append.
  - intros a b.
    apply (keyword_selects_handler _ "delay" _ PlannerAgent.weather_keywords);
      [simpl; auto 10 | simpl; auto 10 |].
    rewrite !lower_append.
    apply (contains_longer "delay" "" "ed"). apply contains_append.
  - intros a b.
    apply (keyword_selects_handler _ "update" _ PlannerAgent.news_keywords);
      [simpl; auto 10 | simpl; auto 10 |].
    rewrite !lower_append.
    apply (contains_longer "update" "" "d"). apply contains_append.
Qed.

Lemma C10_substring_matching_witness :
  In "WeatherAgent" (plan_for "Flights were DELAYED").
Proof.
  apply (proj1 C10_substring_matching "Flights were DELAYED" "delay" "WeatherAgent"
           "flights were " "ed" PlannerAgent.weather_keywords).
  - simpl; auto 10.
  - simpl; auto 10.
  - reflexivity.
Defined.

(** ** The loop, for any registry of agents *)

Section Loop.

Variable agents : gmap string Agent.
Variable max_iterations : Z.

(** One pass adds one to [iteration] and at most one record. *)
Lemma loop_body_step (name : string) (st st' : LoopState) :
  MultiAgentSystem.loop_body agents name st = Continue st' \/
  MultiAgentSystem.loop_body agents name st = Break st' ->
  iteration st' = (iteration st + 1)%Z /\
  length (results (goal st')) <= S (length (results (goal st))).
Proof.
  unfold MultiAgentSystem.loop_body.
  destruct (agents !! name) as [agent|].
  - destruct (agent (current_data st)) as [|result].
    + intros [H|H]; discriminate.
    + destruct (success result); simpl.
      * destruct (decide (name = "PlannerAgent")), (data result !! "plan");
          try destruct (_ && _);
          (intros [[= <-]|H]; [|discriminate]); simpl;
          rewrite length_app; simpl; split; (reflexivity || lia).
      * intros [H|[= <-]]; [discriminate|]. simpl.
        rewrite length_app; simpl; split; (reflexivity || lia).
  - intros [H|[= <-]]; [discriminate|]. simpl. split; (reflexivity || lia).
Qed.

(** A pass that runs an agent other than the planner. *)
Lemma loop_body_handler (name : string) (a : Agent)
    (g : Goal) (d : gmap string Value) (i : Z) :
  agents !! name = Some a ->
  name <> "PlannerAgent" ->
  MultiAgentSystem.loop_body agents name (mkLoopState g d (Some name) i)
  = match a d with
    | Raised => Raise
    | Returned r =>
        let g1 := mkGoal (description g) (plan g) (current_step g)
                         (results g ++ [r]) (is_complete g) in
        if success r
        then
          if negb (bool_decide (plan g = []))
             && (current_step g <? length (plan g) - 1)%nat
          then
            Continue
              (mkLoopState
                 (mkGoal (description g) (plan g) (current_step g + 1)
                         (results g ++ [r]) (is_complete g))
                 (MultiAgentSystem.update d (data r))
                 (plan g !! (current_step g + 1)) (i + 1))
          else
            Continue (mkLoopState g1 (MultiAgentSystem.update d (data r)) None (i + 1))
        else Break (mkLoopState g1 d (Some name) (i + 1))
    end.
Proof.
  intros Hf Hne. unfold MultiAgentSystem.loop_body, Agent in *. rewrite Hf.
  cbn [goal current_data iteration plan current_step results description is_complete].
  destruct (a d) as [|r]; [reflexivity|].
  destruct (success r); cbn [negb]; [|reflexivity].
  destruct (decide (name = "PlannerAgent")) as [?|_]; [contradiction|].
  destruct (data r !! "plan"); reflexivity.
Qed.

(** The loop leaves after at most [max_iterations - iteration] passes. *)
Lemma while_loop_enough (fuel : nat) (st : LoopState) :
  Z.to_nat (max_iterations - iteration st) <= fuel ->
  exists o, MultiAgentSystem.while_loop fuel agents max_iterations st = Some o.
Proof.
  revert st. induction fuel as [|fuel IH]; intros st Hfuel.
  - simpl. destruct (current_agent st) as [name|]; [|eauto].
    destruct (MultiAgentSystem.loop_cond max_iterations st) eqn:Hc; [|eauto].
    unfold MultiAgentSystem.loop_cond in Hc.
    apply andb_true_iff in Hc as [_ Hc]. apply Z.ltb_lt in Hc. lia.
  - simpl. destruct (current_agent st) as [name|]; [|eauto].
    destruct (MultiAgentSystem.loop_cond max_iterations st) eqn:Hc; [|eauto].
    unfold MultiAgentSystem.loop_cond in Hc.
    apply andb_true_iff in Hc as [_ Hc]. apply Z.ltb_lt in Hc.
    destruct (MultiAgentSystem.loop_body agents name st) as [st'|st'|] eqn:Hb;
      [eauto| |eauto].
    apply IH.
    destruct (loop_body_step name st st' (or_introl Hb)) as [-> _]. lia.
Qed.

(** More fuel does not change a result. *)
Lemma while_loop_more (fuel fuel' : nat) (st : LoopState) (o : Outcome LoopState) :
  MultiAgentSystem.while_loop fuel agents max_iterations st = Some o ->
  fuel <= fuel' ->
  MultiAgentSystem.while_loop fuel' agents max_iterations st = Some o.
Proof.
  revert fuel' st. induction fuel as [|fuel IH]; intros fuel' st H Hle.
  - simpl in H. destruct fuel' as [|fuel']; [exact H|]. simpl.
    destruct (current_agent st) as [name|]; [|exact H].
    destruct (MultiAgentSystem.loop_cond max_iterations st); [discriminate|exact H].
  - destruct fuel' as [|fuel']; [lia|]. simpl in *.
    destruct (current_agent st) as [name|]; [|exact H].
    destruct (MultiAgentSystem.loop_cond max_iterations st); [|exact H].
    destruct (MultiAgentSystem.loop_body agents name st) as [st'|st'|];
      [exact H| |exact H].
    apply IH; [exact H|lia].
Qed.

Variable goal_description : string.

(** The state the loop returns is a point of the run: either the loop
    test failed there or a [break] led to it. *)
Lemma while_loop_point (fuel : nat) (st st' : LoopState) :
  point agents max_iterations goal_description true st ->
  MultiAgentSystem.while_loop fuel agents max_iterations st = Some (Returned st') ->
  (point agents max_iterations goal_description true st' /\
   MultiAgentSystem.loop_cond max_iterations st' = false) \/
  point agents max_iterations goal_description false st'.
Proof.
  revert st. induction fuel as [|fuel IH]; intros st Hp H; simpl in H.
  - destruct (current_agent st) as [name|] eqn:Hn.
    + destruct (MultiAgentSystem.loop_cond max_iterations st) eqn:Hc;
        [discriminate|]. injection H as <-. left. now split.
    + injection H as <-. left. split; [exact Hp|].
      unfold MultiAgentSystem.loop_cond. now rewrite Hn.
  - destruct (current_agent st) as [name|] eqn:Hn.
    + destruct (MultiAgentSystem.loop_cond max_iterations st) eqn:Hc.
      * destruct (MultiAgentSystem.loop_body agents name st) as [st1|st1|] eqn:Hb.
        -- injection H as <-. right. eapply point_break; eauto.
        -- apply (IH st1); [|exact H]. eapply point_continue; eauto.
        -- discriminate.
      * injection H as <-. left. now split.
    + injection H as <-. left. split; [exact Hp|].
      unfold MultiAgentSystem.loop_cond. now rewrite Hn.
Qed.

(** At every point the history is no longer than the iteration count,
    which stays within the ceiling. *)
Lemma point_bound (b : bool) (st : LoopState) :
  point agents max_iterations goal_description b st ->
  (Z.of_nat (length (results (goal st))) <= iteration st)%Z /\
  (iteration st <= Z.max 0 max_iterations)%Z.
Proof.
  induction 1 as [|st st' name Hp [IH1 IH2] Hn Hc Hb|st st' name Hp [IH1 IH2] Hn Hc Hb].
  - simpl. lia.
  - destruct (loop_body_step name st st' (or_introl Hb)) as [-> Hlen].
    unfold MultiAgentSystem.loop_cond in Hc.
    apply andb_true_iff in Hc as [_ Hc]. apply Z.ltb_lt in Hc. lia.
  - destruct (loop_body_step name st st' (or_intror Hb)) as [-> Hlen].
    unfold MultiAgentSystem.loop_cond in Hc.
    apply andb_true_iff in Hc as [_ Hc]. apply Z.ltb_lt in Hc. lia.
Qed.

End Loop.

(** ** The loop of the system built by [__init__] *)

Section System.

Variable ext : Collaborators.

Lemma lookup_planner :
  MultiAgentSystem.__init__ ext !! "PlannerAgent" = Some PlannerAgent.execute.
Proof. reflexivity. Qed.

Lemma lookup_handler (name : string) :
  In name handler_names ->
  exists a : Agent,
    MultiAgentSystem.__init__ ext !! name = Some a /\
    (all_return ext -> never_raises a).
Proof.
  simpl. intros [<-|[<-|[<-|[<-|[<-|[]]]]]]; eexists; (split; [reflexivity|]);
    intros (H1 & H2 & H3 & H4 & H5); assumption.
Qed.

Lemma handler_not_planner (name : string) :
  In name handler_names -> name <> "PlannerAgent" /\ truthy (Some name) = true.
Proof.
  simpl. intros [<-|[<-|[<-|[<-|[<-|[]]]]]]; split; (discriminate || reflexivity).
Qed.

Lemma plan_for_names (goal_description name : string) (c : nat) :
  plan_for goal_description !! c = Some name -> In name handler_names.
Proof.
  intros H. rewrite plan_for_eq in H.
  pose proof (analyze_goal_names (lower goal_description)) as HF.
  rewrite List.Forall_forall in HF. apply HF.
  apply list_elem_of_In, list_elem_of_lookup. eauto.
Qed.

(** The first pass runs the planner on the initial context. *)
Lemma loop_body_initial (goal_description : string) :
  MultiAgentSystem.loop_body (MultiAgentSystem.__init__ ext) "PlannerAgent"
    (MultiAgentSystem.initial goal_description)
  = Continue
      (mkLoopState
         (mkGoal goal_description (plan_for goal_description) 0
                 [planner_result goal_description] false)
         (MultiAgentSystem.update {[ "goal" := VStr goal_description ]}
            (data (planner_result goal_description)))
         (head (plan_for goal_description)) 1).
Proof. reflexivity. Qed.

Lemma aligned_snoc (agents : gmap string Agent) (names : list string)
    (rs : list AgentResult) (r : AgentResult) (c : nat) (name : string) :
  aligned agents names rs ->
  length rs = S c ->
  names !! c = Some name ->
  produced_by agents name r ->
  aligned agents names (rs ++ [r]).
Proof.
  unfold aligned. intros Hal Hlen Hname Hr.
  rewrite length_app. simpl. rewrite Nat.add_1_r.
  rewrite (take_S_r _ _ name) by (rewrite Hlen; exact Hname).
  apply Forall2_app; [exact Hal|]. constructor; [exact Hr|constructor].
Qed.

Variable goal_description : string.
Variable max_iterations : Z.

(** Every point of a run has one of the four forms of [Shape]. *)
Lemma point_shape (b : bool) (st : LoopState) :
  point (MultiAgentSystem.__init__ ext) max_iterations goal_description b st ->
  Shape ext goal_description b st.
Proof.
  induction 1 as [|st st' name Hp IH Hn Hc Hb|st st' name Hp IH Hn Hc Hb].
  - constructor.
  - inversion IH as [Hst|g d name' i Hplan Hok Hal Hcur Hlen Hi Hst| |]; subst st.
    + (* the planner's pass *)
      simpl in Hn. injection Hn as <-.
      rewrite loop_body_initial in Hb. injection Hb as <-.
      destruct (plan_for goal_description) as [|name P] eqn:HP.
      { exfalso. revert HP. rewrite plan_for_eq. apply analyze_goal_nonempty. }
      apply shape_running; simpl.
      * now rewrite HP.
      * repeat constructor.
      * unfold aligned. simpl. repeat constructor.
        exists PlannerAgent.execute, {[ "goal" := VStr goal_description ]}.
        split; reflexivity.
      * reflexivity.
      * reflexivity.
      * reflexivity.
    + (* the pass of an agent of the plan *)
      simpl in Hn. injection Hn as <-.
      assert (In name' handler_names) as Hin
        by (apply (plan_for_names goal_description name' (current_step g));
            rewrite <- Hplan; exact Hcur).
      destruct (lookup_handler name' Hin) as (a & Ha & _).
      destruct (handler_not_planner name' Hin) as [Hne _].
      rewrite (loop_body_handler _ _ a g d i Ha Hne) in Hb.
      destruct (a d) as [|r] eqn:Hr; [discriminate|]. cbv zeta in Hb.
      destruct (success r) eqn:Hs; [|discriminate].
      assert (aligned (MultiAgentSystem.__init__ ext) (plan g) (results g ++ [r]))
        as Hal'.
      { apply (aligned_snoc _ _ _ _ (current_step g) name'); auto.
        exists a, d. now split. }
      assert (Forall succeeded (results g ++ [r])) as Hok'.
      { apply Forall_app. split; [exact Hok|]. repeat constructor. exact Hs. }
      pose proof (lookup_lt_Some _ _ _ Hcur) as Hlt.
      destruct (negb (bool_decide (plan g = []))
                && (current_step g <? length (plan g) - 1)%nat) eqn:Hadv;
        injection Hb as <-.
      * apply andb_true_iff in Hadv as [_ Hadv]. apply Nat.ltb_lt in Hadv.
        destruct (lookup_lt_is_Some_2 (plan g) (current_step g + 1)) as [nxt Hnxt];
          [lia|].
        rewrite Hnxt.
        apply shape_running; simpl; auto; rewrite length_app; simpl; lia.
      * assert (S (current_step g) = length (plan g)) as Hend.
        { apply andb_false_iff in Hadv as [Hadv|Hadv].
          - apply negb_false_iff, bool_decide_eq_true in Hadv.
            rewrite Hadv in Hlt. simpl in Hlt. lia.
          - apply Nat.ltb_ge in Hadv. lia. }
        apply shape_completed; simpl; auto; rewrite length_app; simpl; lia.
    + (* no pass starts once the plan is exhausted *)
      simpl in Hn. discriminate.
  - inversion IH as [Hst|g d name' i Hplan Hok Hal Hcur Hlen Hi Hst| |]; subst st.
    + simpl in Hn. injection Hn as <-.
      rewrite loop_body_initial in Hb. discriminate.
    + simpl in Hn. injection Hn as <-.
      assert (In name' handler_names) as Hin
        by (apply (plan_for_names goal_description name' (current_step g));
            rewrite <- Hplan; exact Hcur).
      destruct (lookup_handler name' Hin) as (a & Ha & _).
      destruct (handler_not_planner name' Hin) as [Hne _].
      rewrite (loop_body_handler _ _ a g d i Ha Hne) in Hb.
      destruct (a d) as [|r] eqn:Hr; [discriminate|]. cbv zeta in Hb.
      destruct (success r) eqn:Hs.
      * destruct (_ && _); discriminate.
      * injection Hb as <-.
        apply (shape_failed _ _ _ _ _ _ (results g) r); simpl; auto.
        -- apply (aligned_snoc _ _ _ _ (current_step g) name'); auto.
           exists a, d. now split.
        -- exists a, d. now split.
        -- rewrite length_app. simpl. lia.
        -- rewrite length_app. simpl. lia.
    + simpl in Hn. discriminate.
Qed.

(** No pass of the system raises when no collaborator does. *)
Lemma loop_body_returns (st : LoopState) (name : string) :
  all_return ext ->
  point (MultiAgentSystem.__init__ ext) max_iterations goal_description true st ->
  current_agent st = Some name ->
  MultiAgentSystem.loop_body (MultiAgentSystem.__init__ ext) name st <> Raise.
Proof.
  intros Hret Hp Hn. apply point_shape in Hp.
  inversion Hp as [Hst|g d name' i Hplan Hok Hal Hcur Hlen Hi Hst|g d i ? ? ? ? ? ? Hst|];
    subst st; simpl in Hn.
  - injection Hn as <-. rewrite loop_body_initial. discriminate.
  - injection Hn as <-.
    assert (In name' handler_names) as Hin
      by (apply (plan_for_names goal_description name' (current_step g));
          rewrite <- Hplan; exact Hcur).
    destruct (lookup_handler name' Hin) as (a & Ha & Hnr).
    destruct (handler_not_planner name' Hin) as [Hne _].
    rewrite (loop_body_handler _ _ a g d i Ha Hne).
    pose proof (Hnr Hret d) as Hd.
    destruct (a d) as [|r]; [contradiction|]. cbv zeta.
    destruct (success r); [destruct (_ && _)|]; discriminate.
  - discriminate.
Qed.

(** From a point at the head of the loop, enough fuel leads to a
    returned state when no collaborator raises. *)
Lemma while_loop_returns (fuel : nat) (st : LoopState) :
  all_return ext ->
  point (MultiAgentSystem.__init__ ext) max_iterations goal_description true st ->
  Z.to_nat (max_iterations - iteration st) <= fuel ->
  exists st',
    MultiAgentSystem.while_loop fuel (MultiAgentSystem.__init__ ext)
      max_iterations st = Some (Returned st').
Proof.
  intros Hret. revert st. induction fuel as [|fuel IH]; intros st Hp Hfuel.
  - destruct (while_loop_enough (MultiAgentSystem.__init__ ext) max_iterations
                0 st Hfuel) as [o Ho].
    simpl in *. destruct (current_agent st); [|eauto].
    destruct (MultiAgentSystem.loop_cond max_iterations st); [discriminate|eauto].
  - simpl. destruct (current_agent st) as [name|] eqn:Hn; [|eauto].
    destruct (MultiAgentSystem.loop_cond max_iterations st) eqn:Hc; [|eauto].
    pose proof (loop_body_returns st name Hret Hp Hn) as Hnr.
    destruct (MultiAgentSystem.loop_body (MultiAgentSystem.__init__ ext) name st)
      as [st'|st'|] eqn:Hb; [eauto| |contradiction].
    apply IH; [eapply point_continue; eauto|].
    destruct (loop_body_step _ name st st' (or_introl Hb)) as [-> _].
    unfold MultiAgentSystem.loop_cond in Hc.
    apply andb_true_iff in Hc as [_ Hc]. apply Z.ltb_lt in Hc. lia.
Qed.

(** A goal that a run of the system returns comes from a point of the
    run at which the loop was left. *)
Lemma run_returned (g : Goal) :
  MultiAgentSystem.execute_goal (MultiAgentSystem.__init__ ext)
    goal_description max_iterations = Some (Returned g) ->
  exists (b : bool) (st : LoopState),
    g = MultiAgentSystem.finish st /\
    point (MultiAgentSystem.__init__ ext) max_iterations goal_description b st /\
    (b = true -> MultiAgentSystem.loop_cond max_iterations st = false).
Proof.
  unfold MultiAgentSystem.execute_goal, MultiAgentSystem.execute_goal_fuel.
  destruct (MultiAgentSystem.while_loop _ _ _ _) as [[|st]|] eqn:Hst;
    try discriminate.
  intros [= <-].
  pose proof (point_initial (MultiAgentSystem.__init__ ext) max_iterations
                goal_description) as Hp0.
  destruct (while_loop_point _ _ _ _ _ _ Hp0 Hst) as [[Hp Hc]|Hp].
  - exists true, st. auto.
  - exists false, st. repeat split; [exact Hp|discriminate].
Qed.

(** A run of the system returns when no collaborator raises. *)
Lemma run_returns :
  all_return ext ->
  exists g : Goal,
    MultiAgentSystem.execute_goal (MultiAgentSystem.__init__ ext)
      goal_description max_iterations = Some (Returned g).
Proof.
  intros Hret.
  pose proof (point_initial (MultiAgentSystem.__init__ ext) max_iterations
                goal_description) as Hp0.
  destruct (while_loop_returns (Z.to_nat max_iterations) _ Hret Hp0) as [st Hst].
  { simpl. lia. }
  unfold MultiAgentSystem.execute_goal, MultiAgentSystem.execute_goal_fuel.
  rewrite Hst. eauto.
Qed.

End System.

(** The loop is left at once when its test fails. *)
Lemma while_loop_exit (fuel : nat) (agents : gmap string Agent)
    (max_iterations : Z) (st : LoopState) :
  MultiAgentSystem.loop_cond max_iterations st = false ->
  MultiAgentSystem.while_loop fuel agents max_iterations st = Some (Returned st).
Proof.
  intros Hc. destruct fuel; simpl; destruct (current_agent st);
    try rewrite Hc; reflexivity.
Qed.

(** One pass of the loop, given fuel for it. *)
Lemma while_loop_pass (fuel : nat) (agents : gmap string Agent)
    (max_iterations : Z) (st : LoopState) (name : string) :
  current_agent st = Some name ->
  MultiAgentSystem.loop_cond max_iterations st = true ->
  MultiAgentSystem.while_loop (S fuel) agents max_iterations st
  = match MultiAgentSystem.loop_body agents name st with
    | Break st' => Some (Returned st')
    | Continue st' => MultiAgentSystem.while_loop fuel agents max_iterations st'
    | Raise => Some Raised
    end.
Proof. intros Hn Hc. simpl. rewrite Hn, Hc. reflexivity. Qed.

(** Every run ends, by returning a goal or by an exception. *)
Lemma run_ends (agents : gmap string Agent) (goal_description : string)
    (max_iterations : Z) :
  exists o : Outcome Goal,
    MultiAgentSystem.execute_goal agents goal_description max_iterations = Some o.
Proof.
  unfold MultiAgentSystem.execute_goal, MultiAgentSystem.execute_goal_fuel.
  destruct (while_loop_enough agents max_iterations (Z.to_nat max_iterations)
              (MultiAgentSystem.initial goal_description)) as [o Ho].
  { simpl. lia. }
  rewrite Ho. destruct o; eauto.
Qed.

(** With a ceiling of 1 the run is the planner's pass alone. *)
Lemma run_once (ext : Collaborators) (goal_description : string) :
  MultiAgentSystem.execute_goal (MultiAgentSystem.__init__ ext) goal_description 1
  = Some (Returned
            (mkGoal goal_description (plan_for goal_description) 0
                    [planner_result goal_description] false)).
Proof.
  unfold MultiAgentSystem.execute_goal, MultiAgentSystem.execute_goal_fuel.
  change (Z.to_nat 1) with 1.
  rewrite (while_loop_pass _ _ _ _ "PlannerAgent"); [|reflexivity|reflexivity].
  rewrite loop_body_initial.
  rewrite while_loop_exit.
  - unfold MultiAgentSystem.finish. cbn [goal description plan current_step results
      current_agent].
    destruct (plan_for goal_description) as [|name p] eqn:HP.
    { exfalso. revert HP. rewrite plan_for_eq. apply analyze_goal_nonempty. }
    reflexivity.
  - unfold MultiAgentSystem.loop_cond. apply andb_false_iff. right. reflexivity.
Qed.

(** Extra fuel leaves [execute_goal] unchanged. *)
Lemma execute_goal_fuel_enough (agents : gmap string Agent)
    (goal_description : string) (max_iterations : Z) (fuel : nat) :
  Z.to_nat max_iterations <= fuel ->
  MultiAgentSystem.execute_goal_fuel fuel agents goal_description max_iterations
  = MultiAgentSystem.execute_goal agents goal_description max_iterations.
Proof.
  intros Hfuel.
  unfold MultiAgentSystem.execute_goal, MultiAgentSystem.execute_goal_fuel.
  destruct (while_loop_enough agents max_iterations (Z.to_nat max_iterations)
              (MultiAgentSystem.initial goal_description)) as [o Ho].
  { simpl. lia. }
  rewrite Ho, (while_loop_more _ _ _ _ _ _ Ho Hfuel). reflexivity.
Qed.

(** [is_complete] is set exactly on the runs that reached the end of
    their plan. *)
Lemma finish_complete_iff (ext : Collaborators) (goal_description : string)
    (max_iterations : Z) (b : bool) (st : LoopState) :
  point (MultiAgentSystem.__init__ ext) max_iterations goal_description b st ->
  is_complete (MultiAgentSystem.finish st) = true
  <-> plan_completed (MultiAgentSystem.finish st).
Proof.
  intros Hp. apply point_shape in Hp. unfold plan_completed.
  inversion Hp as [Hst|g d name i Hplan Hok Hal Hcur Hlen Hi Hst
                  |g d i Hplan Hok Hal Hend Hlen Hi Hst
                  |g d name i rs r Hplan Hres Hr Hok Hal Hby Hcur Hlen Hi Hst];
    subst; simpl.
  - split; [discriminate|]. intros [_ H]. discriminate.
  - split; [discriminate|]. intros [_ H].
    apply lookup_lt_Some in Hcur. lia.
  - split; [intros _; now split|reflexivity].
  - split; [discriminate|]. intros [H _]. exfalso.
    rewrite Hres in H. apply Forall_app in H as [_ H].
    inversion H as [|? ? Hs _]; subst. unfold succeeded in Hs. congruence.
Qed.

(** A pass leaves the cursor alone or moves it one step, and moves it
    only from below the last index of an unchanged plan. *)
Lemma loop_body_cursor (agents : gmap string Agent) (name : string)
    (st st' : LoopState) :
  MultiAgentSystem.loop_body agents name st = Continue st' \/
  MultiAgentSystem.loop_body agents name st = Break st' ->
  current_step (goal st') = current_step (goal st) \/
  (current_step (goal st') = S (current_step (goal st)) /\
   plan (goal st') = plan (goal st) /\
   current_step (goal st) < length (plan (goal st)) - 1).
Proof.
  unfold MultiAgentSystem.loop_body.
  destruct (agents !! name) as [agent|].
  - destruct (agent (current_data st)) as [|result].
    + intros [H|H]; discriminate.
    + destruct (success result); simpl.
      * destruct (decide (name = "PlannerAgent")), (data result !! "plan");
          try (intros [[= <-]|H]; [|discriminate]; simpl; now left);
          (destruct (_ && _) eqn:Hadv; (intros [[= <-]|H]; [|discriminate]); simpl;
           [right|now left]);
          apply andb_true_iff in Hadv as [_ Hadv]; apply Nat.ltb_lt in Hadv;
          (split; [lia|split; [reflexivity|exact Hadv]]).
      * intros [H|[= <-]]; [discriminate|]. simpl. now left.
  - intros [H|[= <-]]; [discriminate|]. simpl. now left.
Qed.

(** C8: with a ceiling of [max_iterations >= 0] the run ends, by
    returning a goal or by the exception of an agent, and any fuel from
    [max_iterations] on gives the same outcome: the loop body is entered
    at most [max_iterations] times. A goal that is returned has at most
    [max_iterations] records, since each pass appends at most one. *)
Theorem C8_bounded_run (ext : Collaborators) (goal_description : string)
    (max_iterations : Z) :
  (0 <= max_iterations)%Z ->
  (exists o : Outcome Goal,
     MultiAgentSystem.execute_goal (MultiAgentSystem.__init__ ext)
       goal_description max_iterations = Some o /\
     forall fuel : nat,
       Z.to_nat max_iterations <= fuel ->
       MultiAgentSystem.execute_goal_fuel fuel (MultiAgentSystem.__init__ ext)
         goal_description max_iterations = Some o) /\
  (forall g : Goal,
     MultiAgentSystem.execute_goal (MultiAgentSystem.__init__ ext)
       goal_description max_iterations = Some (Returned g) ->
     exists st : LoopState,
       g = MultiAgentSystem.finish st /\
       (iteration st <= max_iterations)%Z /\
       (Z.of_nat (length (results g)) <= iteration st)%Z /\
       (Z.of_nat (length (results g)) <= max_iterations)%Z).
Proof.
  intros Hmax. split.
  - destruct (run_ends (MultiAgentSystem.__init__ ext) goal_description
                max_iterations) as [o Ho].
    exists o. split; [exact Ho|]. intros fuel Hfuel.
    rewrite execute_goal_fuel_enough by exact Hfuel. exact Ho.
  - intros g Hrun.
    destruct (run_returned ext goal_description max_iterations g Hrun)
      as (b & st & -> & Hp & _).
    destruct (point_bound _ _ _ _ _ Hp) as [H1 H2].
    exists st. split; [reflexivity|]. simpl. lia.
Qed.

Lemma C8_bounded_run_witness :
  (0 <= 2)%Z /\
  match MultiAgentSystem.execute_goal (MultiAgentSystem.__init__ all_succeed)
          launch_goal 2 with
  | Some (Returned g) =>
      (Z.of_nat (length (results g)) <= 2)%Z
  | _ => False
  end.
Proof.
  assert (0 <= 2)%Z as H by (vm_compute; discriminate).
  split; [exact H|].
  destruct (MultiAgentSystem.execute_goal (MultiAgentSystem.__init__ all_succeed)
          launch_goal 2)
    as [[|g]|] eqn:Hrun.
  - vm_compute in Hrun. discriminate Hrun.
  - destruct (proj2 (C8_bounded_run all_succeed launch_goal 2 H) g Hrun)
      as (st & _ & _ & _ & Hle). exact Hle.
  - vm_compute in Hrun. discriminate Hrun.
Defined.

(** C9: at every point of every run the cursor is at most the length of
    the plan; it is 0 while the plan is empty; a pass moves it by at
    most one step, and only from strictly below the last index of the
    plan; a goal that is returned satisfies the bound too. *)
Theorem C9_cursor_in_plan (ext : Collaborators) (goal_description : string)
    (max_iterations : Z) :
  (forall (b : bool) (st : LoopState),
     point (MultiAgentSystem.__init__ ext) max_iterations goal_description b st ->
     current_step (goal st) <= length (plan (goal st)) /\
     (plan (goal st) = [] -> current_step (goal st) = 0)) /\
  (forall (name : string) (st st' : LoopState),
     MultiAgentSystem.loop_body (MultiAgentSystem.__init__ ext) name st = Continue st' \/
     MultiAgentSystem.loop_body (MultiAgentSystem.__init__ ext) name st = Break st' ->
     current_step (goal st') = current_step (goal st) \/
     (current_step (goal st') = S (current_step (goal st)) /\
      plan (goal st') = plan (goal st) /\
      current_step (goal st) < length (plan (goal st)) - 1)) /\
  (forall g : Goal,
     MultiAgentSystem.execute_goal (MultiAgentSystem.__init__ ext)
       goal_description max_iterations = Some (Returned g) ->
     current_step g <= length (plan g)).
Proof.
  assert (forall (b : bool) (st : LoopState),
     point (MultiAgentSystem.__init__ ext) max_iterations goal_description b st ->
     current_step (goal st) <= length (plan (goal st)) /\
     (plan (goal st) = [] -> current_step (goal st) = 0)) as Hinv.
  { intros b st Hp. apply point_shape in Hp.
    inversion Hp as [Hst|g d name i Hplan Hok Hal Hcur Hlen Hi Hst
                    |g d i Hplan Hok Hal Hend Hlen Hi Hst
                    |g d name i rs r Hplan Hres Hr Hok Hal Hby Hcur Hlen Hi Hst];
      subst; simpl.
    - split; [lia|reflexivity].
    - apply lookup_lt_Some in Hcur. split; [lia|].
      intros E. rewrite E in Hcur. simpl in Hcur. lia.
    - split; [lia|]. intros E. rewrite E in Hend. simpl in Hend. lia.
    - apply lookup_lt_Some in Hcur. split; [lia|].
      intros E. rewrite E in Hcur. simpl in Hcur. lia. }
  split; [exact Hinv|]. split; [apply loop_body_cursor|].
  intros g Hrun.
  destruct (run_returned ext goal_description max_iterations g Hrun)
    as (b & st & -> & Hp & _).
  apply (Hinv b st Hp).
Qed.

Lemma C9_cursor_in_plan_witness :
  match MultiAgentSystem.execute_goal (MultiAgentSystem.__init__ all_succeed)
          launch_goal 10 with
  | Some (Returned g) =>
      current_step g <= length (plan g)
  | _ => False
  end.
Proof.
  destruct (MultiAgentSystem.execute_goal (MultiAgentSystem.__init__ all_succeed)
          launch_goal 10)
    as [[|g]|] eqn:Hrun.
  - vm_compute in Hrun. discriminate Hrun.
  - exact (proj2 (proj2 (C9_cursor_in_plan all_succeed launch_goal 10)) g Hrun).
  - vm_compute in Hrun. discriminate Hrun.
Defined.

(** C1, with the flag read as the code sets it: a goal that a run
    returns has [is_complete] true exactly when the run reached the end
    of its plan, the planner and every agent of the plan having been
    invoked with success; the flag is false after a failed agent and
    when the ceiling stops the run first. With a ceiling of 1 the run
    always returns, after exactly one invocation, the planner's, and the
    flag is false. *)
Theorem C1_completion_flag :
  (forall (ext : Collaborators) (goal_description : string) (max_iterations : Z)
          (g : Goal),
     MultiAgentSystem.execute_goal (MultiAgentSystem.__init__ ext)
       goal_description max_iterations = Some (Returned g) ->
     (is_complete g = true <-> plan_completed g)) /\
  (forall (ext : Collaborators) (goal_description : string),
     exists (g : Goal) (r : AgentResult),
       MultiAgentSystem.execute_goal (MultiAgentSystem.__init__ ext)
         goal_description 1 = Some (Returned g) /\
       results g = [r] /\
       produced_by (MultiAgentSystem.__init__ ext) "PlannerAgent" r /\
       is_complete g = false).
Proof.
  split.
  - intros ext t m g Hrun.
    destruct (run_returned ext t m g Hrun) as (b & st & -> & Hp & _).
    apply (finish_complete_iff ext t m b st Hp).
  - intros ext t. eexists. exists (planner_result t).
    split; [apply run_once|]. split; [reflexivity|]. split; [|reflexivity].
    exists PlannerAgent.execute, {[ "goal" := VStr t ]}. split; reflexivity.
Qed.

(** C1 as the specification words it fails with a ceiling of 1 on a
    three-step plan: the run stops after the planner's invocation and
    the flag is false. *)
Lemma C1_counterexample :
  match MultiAgentSystem.execute_goal (MultiAgentSystem.__init__ all_succeed)
          launch_goal 1 with
  | Some (Returned g) =>
      length (plan g) = 3 /\ length (results g) = 1 /\ is_complete g = false
  | _ => False
  end.
Proof. vm_compute. repeat split. Qed.

Lemma C1_completion_flag_witness :
  match MultiAgentSystem.execute_goal (MultiAgentSystem.__init__ weather_fails)
          launch_goal 10 with
  | Some (Returned g) =>
      is_complete g = true <-> plan_completed g
  | _ => False
  end.
Proof.
  destruct (MultiAgentSystem.execute_goal (MultiAgentSystem.__init__ weather_fails)
          launch_goal 10)
    as [[|g]|] eqn:Hrun.
  - vm_compute in Hrun. discriminate Hrun.
  - exact (proj1 C1_completion_flag weather_fails launch_goal 10%Z g Hrun).
  - vm_compute in Hrun. discriminate Hrun.
Defined.

(** C2, with the planner's record counted: when the ceiling exceeds the
    length of the plan, a goal that is returned with every record of its
    history reporting success has reached the end of its plan: the flag
    is set, the cursor is on the last step and the history holds the
    planner's record followed by one record per agent of the plan, in
    plan order: [len(history) = len(plan) + 1]. And the run does return
    when no agent raises. *)
Theorem C2_all_succeed (ext : Collaborators) (goal_description : string)
    (max_iterations : Z) :
  (Z.of_nat (length (plan_for goal_description)) < max_iterations)%Z ->
  (forall g : Goal,
     MultiAgentSystem.execute_goal (MultiAgentSystem.__init__ ext)
       goal_description max_iterations = Some (Returned g) ->
     Forall succeeded (results g) ->
     is_complete g = true /\
     plan g = plan_for goal_description /\
     S (current_step g) = length (plan g) /\
     length (results g) = S (length (plan g)) /\
     Forall2 (produced_by (MultiAgentSystem.__init__ ext))
             ("PlannerAgent" :: plan g) (results g)) /\
  (all_return ext ->
   exists g : Goal,
     MultiAgentSystem.execute_goal (MultiAgentSystem.__init__ ext)
       goal_description max_iterations = Some (Returned g)).
Proof.
  intros Hmax. split; [|apply run_returns].
  intros g0 Hrun Hall.
  destruct (run_returned ext goal_description max_iterations g0 Hrun)
    as (b & st & -> & Hp & Hc).
  pose proof (point_shape _ _ _ _ _ Hp) as Hs.
  inversion Hs as [Hst|g d name i Hplan Hok Hal Hcur Hlen Hi Hst
                  |g d i Hplan Hok Hal Hend Hlen Hi Hst
                  |g d name i rs r Hplan Hres Hr Hok Hal Hby Hcur Hlen Hi Hst];
    subst; simpl in *.
  - exfalso. specialize (Hc eq_refl).
    unfold MultiAgentSystem.loop_cond in Hc. simpl in Hc.
    apply Z.ltb_ge in Hc. lia.
  - exfalso. specialize (Hc eq_refl).
    unfold MultiAgentSystem.loop_cond in Hc. cbn [current_agent iteration] in Hc.
    assert (In name handler_names) as Hin
      by (apply (plan_for_names goal_description name (current_step g));
          rewrite <- Hplan; exact Hcur).
    destruct (handler_not_planner name Hin) as [_ Ht]. rewrite Ht in Hc.
    apply Z.ltb_ge in Hc. apply lookup_lt_Some in Hcur.
    rewrite <- Hplan in Hmax. lia.
  - repeat split; auto.
    unfold aligned in Hal. rewrite take_ge in Hal by (simpl; lia). exact Hal.
  - exfalso. rewrite Hres in Hall. apply Forall_app in Hall as [_ Hall].
    inversion Hall as [|? ? Hsr _]; subst. unfold succeeded in Hsr. congruence.
Qed.

(** C2 as the specification words it fails on "what is the weather" when
    the weather agent succeeds: the plan has one step and the history
    two records. *)
Lemma C2_counterexample :
  match MultiAgentSystem.execute_goal (MultiAgentSystem.__init__ all_succeed)
          "what is the weather" 10 with
  | Some (Returned g) =>
      plan g = ["WeatherAgent"] /\
      forallb success (results g) = true /\ is_complete g = true /\
      length (plan g) = 1 /\ length (results g) = 2
  | _ => False
  end.
Proof. vm_compute. repeat split. Qed.

Lemma C2_all_succeed_witness :
  (Z.of_nat (length (plan_for "what is the weather")) < 10)%Z /\
  match MultiAgentSystem.execute_goal (MultiAgentSystem.__init__ all_succeed)
          "what is the weather" 10 with
  | Some (Returned g) =>
      Forall succeeded (results g) ->
      is_complete g = true /\ length (results g) = S (length (plan g))
  | _ => False
  end.
Proof.
  assert (Z.of_nat (length (plan_for "what is the weather")) < 10)%Z as H
    by (vm_compute; reflexivity).
  split; [exact H|].
  destruct (MultiAgentSystem.execute_goal (MultiAgentSystem.__init__ all_succeed)
          "what is the weather" 10)
    as [[|g]|] eqn:Hrun.
  - vm_compute in Hrun. discriminate Hrun.
  - intros Hall.
    destruct (proj1 (C2_all_succeed all_succeed "what is the weather" 10 H)
                g Hrun Hall) as (H1 & _ & _ & H4 & _).
    split; [exact H1|exact H4].
  - vm_compute in Hrun. discriminate Hrun.
Defined.

(** C3, with the planner's record counted: in a goal that is returned, a
    record of the history that reports failure is its last record: if
    the record at position [k] (the planner's being at position 0)
    reports failure, every earlier record reports success, the history
    has [k + 1] records, the record comes from the [k]-th agent of the
    plan, no later agent is invoked, and the goal is not complete. *)
Theorem C3_fail_fast (ext : Collaborators) (goal_description : string)
    (max_iterations : Z) (g : Goal) :
  MultiAgentSystem.execute_goal (MultiAgentSystem.__init__ ext)
    goal_description max_iterations = Some (Returned g) ->
  forall (k : nat) (r : AgentResult),
    results g !! k = Some r ->
    success r = false ->
    length (results g) = S k /\
    last (results g) = Some r /\
    Forall succeeded (take k (results g)) /\
    is_complete g = false /\
    exists name : string,
      1 <= k /\ plan g !! (k - 1) = Some name /\
      produced_by (MultiAgentSystem.__init__ ext) name r.
Proof.
  intros Hrun.
  destruct (run_returned ext goal_description max_iterations g Hrun)
    as (b & st & -> & Hp & Hc).
  pose proof (point_shape _ _ _ _ _ Hp) as Hs.
  intros k r0 Hk Hfail.
  inversion Hs as [Hst|g d name i Hplan Hok Hal Hcur Hlen Hi Hst
                  |g d i Hplan Hok Hal Hend Hlen Hi Hst
                  |g d name i rs r Hplan Hres Hr Hok Hal Hby Hcur Hlen Hi Hst];
    subst; simpl in *.
  - discriminate.
  - exfalso. pose proof (Forall_lookup_1 _ _ _ _ Hok Hk) as Hs0.
    unfold succeeded in Hs0. congruence.
  - exfalso. pose proof (Forall_lookup_1 _ _ _ _ Hok Hk) as Hs0.
    unfold succeeded in Hs0. congruence.
  - rewrite Hres in *. rewrite length_app in *. simpl in Hlen.
    destruct (decide (k < length rs)) as [Hlt|Hge].
    + exfalso. rewrite lookup_app_l in Hk by exact Hlt.
      pose proof (Forall_lookup_1 _ _ _ _ Hok Hk) as Hs0.
      unfold succeeded in Hs0. congruence.
    + pose proof (lookup_lt_Some _ _ _ Hk) as Hlt.
      rewrite length_app in Hlt. simpl in Hlt.
      assert (k = length rs) as -> by lia.
      rewrite lookup_app_r, Nat.sub_diag in Hk by lia.
      simpl in Hk. injection Hk as <-.
      split; [simpl; lia|]. split; [apply last_snoc|].
      split; [rewrite take_app_length; exact Hok|]. split; [reflexivity|].
      exists name. split; [lia|]. split; [|exact Hby].
      replace (length rs - 1) with (current_step g) by lia. exact Hcur.
Qed.

(** C3 as the specification words it fails when the second of three
    planned agents fails: the history then has three records, not two. *)
Lemma C3_counterexample :
  match MultiAgentSystem.execute_goal (MultiAgentSystem.__init__ weather_fails)
          launch_goal 10 with
  | Some (Returned g) =>
      plan g = ["SpaceXAgent"; "WeatherAgent"; "SummarizeAgent"] /\
      map agent_name (results g) = ["Planner"; "SpaceX"; "Weather"] /\
      map success (results g) = [true; true; false] /\
      length (results g) = 3
  | _ => False
  end.
Proof. vm_compute. repeat split. Qed.

Lemma C3_fail_fast_witness :
  match MultiAgentSystem.execute_goal (MultiAgentSystem.__init__ weather_fails)
          launch_goal 10 with
  | Some (Returned g) =>
      results g !! 2 = Some (sample_agent "Weather" false ∅) ->
      length (results g) = 3 /\ is_complete g = false
  | _ => False
  end.
Proof.
  destruct (MultiAgentSystem.execute_goal (MultiAgentSystem.__init__ weather_fails)
          launch_goal 10)
    as [[|g]|] eqn:Hrun.
  - vm_compute in Hrun. discriminate Hrun.
  - intros Hk.
    destruct (C3_fail_fast weather_fails launch_goal 10 g Hrun 2
                (sample_agent "Weather" false ∅) Hk eq_refl)
      as (Hlen & _ & _ & Hflag & _).
    split; [exact Hlen|exact Hflag].
  - vm_compute in Hrun. discriminate Hrun.
Defined.

(** ** The shared context *)

(** What [update] leaves under each key: the new value when the new data
    has the key, the old one otherwise. *)
Lemma update_lookup (current_data new_data : gmap string Value) (k : string) :
  MultiAgentSystem.update current_data new_data !! k
  = match new_data !! k with
    | Some v => Some v
    | None => current_data !! k
    end.
Proof.
  unfold MultiAgentSystem.update. rewrite lookup_union.
  destruct (new_data !! k), (current_data !! k); reflexivity.
Qed.

(** A pass that goes on has merged the data of a successful result. *)
Lemma loop_body_continue_data (agents : gmap string Agent) (name : string)
    (st st' : LoopState) :
  MultiAgentSystem.loop_body agents name st = Continue st' ->
  exists (agent : Agent) (result : AgentResult),
    agents !! name = Some agent /\
    agent (current_data st) = Returned result /\
    success result = true /\
    current_data st' = MultiAgentSystem.update (current_data st) (data result).
Proof.
  unfold MultiAgentSystem.loop_body.
  destruct (agents !! name) as [agent|]; [|discriminate].
  destruct (agent (current_data st)) as [|result] eqn:Hr; [discriminate|].
  destruct (success result) eqn:Hs; simpl; [|discriminate].
  intros H. exists agent, result. repeat split; try assumption.
  destruct (decide (name = "PlannerAgent")), (data result !! "plan");
    try destruct (_ && _); injection H as <-; reflexivity.
Qed.

(** A pass that breaks leaves the context as it was. *)
Lemma loop_body_break_data (agents : gmap string Agent) (name : string)
    (st st' : LoopState) :
  MultiAgentSystem.loop_body agents name st = Break st' ->
  current_data st' = current_data st.
Proof.
  unfold MultiAgentSystem.loop_body.
  destruct (agents !! name) as [agent|]; [|intros [= <-]; reflexivity].
  destruct (agent (current_data st)) as [|result]; [discriminate|].
  destruct (success result); simpl; [|intros [= <-]; reflexivity].
  destruct (decide (name = "PlannerAgent")), (data result !! "plan");
    try destruct (_ && _); discriminate.
Qed.

(** A pass whose agent returns a successful result goes on, with the
    result appended and its data merged into the context. *)
Lemma loop_body_success (agents : gmap string Agent) (name : string)
    (st : LoopState) (agent : Agent) (result : AgentResult) :
  agents !! name = Some agent ->
  agent (current_data st) = Returned result ->
  success result = true ->
  exists st' : LoopState,
    MultiAgentSystem.loop_body agents name st = Continue st' /\
    current_data st' = MultiAgentSystem.update (current_data st) (data result) /\
    results (goal st') = results (goal st) ++ [result].
Proof.
  intros Ha Hr Hs. unfold MultiAgentSystem.loop_body, Agent in *.
  rewrite Ha, Hr, Hs. cbn [negb].
  destruct (decide (name = "PlannerAgent")), (data result !! "plan");
    try destruct (_ && _); eexists; (split; [reflexivity|]); split; reflexivity.
Qed.

(** A pass whose agent returns a failed result breaks, with the result
    appended and the context as it was. *)
Lemma loop_body_failure (agents : gmap string Agent) (name : string)
    (st : LoopState) (agent : Agent) (result : AgentResult) :
  agents !! name = Some agent ->
  agent (current_data st) = Returned result ->
  success result = false ->
  exists st' : LoopState,
    MultiAgentSystem.loop_body agents name st = Break st' /\
    current_data st' = current_data st /\
    results (goal st') = results (goal st) ++ [result].
Proof.
  intros Ha Hr Hs. unfold MultiAgentSystem.loop_body, Agent in *.
  rewrite Ha, Hr, Hs. cbn [negb].
  eexists. split; [reflexivity|]. split; reflexivity.
Qed.

(** C6: the context starts as the single entry "goal"; a pass whose
    agent returns a successful result goes on with the context replaced
    by its merge with the result's data, and this is the only way a pass
    goes on; a pass whose agent returns a failed result breaks and
    leaves the context unchanged, as does every pass that breaks; in the merge every key of the
    data takes the data's value, whatever that value is, and every other
    key keeps its own; a context with "a" -> 1 merged with
    {"a": 2, "b": 3} has "a" -> 2, "b" -> 3 and its other keys as
    before. *)
Theorem C6_context_merge :
  (forall goal_description : string,
     current_data (MultiAgentSystem.initial goal_description)
     = {[ "goal" := VStr goal_description ]}) /\
  (forall (agents : gmap string Agent) (name : string) (st st' : LoopState),
     MultiAgentSystem.loop_body agents name st = Continue st' ->
     exists (agent : Agent) (result : AgentResult),
       agents !! name = Some agent /\
       agent (current_data st) = Returned result /\
       success result = true /\
       current_data st' = MultiAgentSystem.update (current_data st) (data result)) /\
  (forall (agents : gmap string Agent) (name : string) (st st' : LoopState),
     MultiAgentSystem.loop_body agents name st = Break st' ->
     current_data st' = current_data st) /\
  (forall (current_data new_data : gmap string Value) (k : string),
     MultiAgentSystem.update current_data new_data !! k
     = match new_data !! k with
       | Some v => Some v
       | None => current_data !! k
       end) /\
  (forall current_data : gmap string Value,
     current_data !! "a" = Some (VInt 1) ->
     MultiAgentSystem.update current_data {[ "a" := VInt 2; "b" := VInt 3 ]} !! "a"
     = Some (VInt 2) /\
     MultiAgentSystem.update current_data {[ "a" := VInt 2; "b" := VInt 3 ]} !! "b"
     = Some (VInt 3) /\
     forall k : string,
       k <> "a" -> k <> "b" ->
       MultiAgentSystem.update current_data {[ "a" := VInt 2; "b" := VInt 3 ]} !! k
       = current_data !! k) /\
  (forall goal_description : string,
     MultiAgentSystem.update {[ "a" := VInt 1; "goal" := VStr goal_description ]}
                             {[ "a" := VInt 2; "b" := VInt 3 ]}
     = {[ "a" := VInt 2; "b" := VInt 3; "goal" := VStr goal_description ]}) /\
  MultiAgentSystem.update {[ "k" := VDict [("x", VInt 1); ("y", VInt 2)] ]}
                          {[ "k" := VDict [("x", VInt 5)] ]}
  = {[ "k" := VDict [("x", VInt 5)] ]} /\
  (forall (agents : gmap string Agent) (name : string) (st : LoopState)
          (agent : Agent) (result : AgentResult),
     agents !! name = Some agent ->
     agent (current_data st) = Returned result ->
     success result = true ->
     exists st' : LoopState,
       MultiAgentSystem.loop_body agents name st = Continue st' /\
       current_data st' = MultiAgentSystem.update (current_data st) (data result) /\
       results (goal st') = results (goal st) ++ [result]) /\
  (forall (agents : gmap string Agent) (name : string) (st : LoopState)
          (agent : Agent) (result : AgentResult),
     agents !! name = Some agent ->
     agent (current_data st) = Returned result ->
     success result = false ->
     exists st' : LoopState,
       MultiAgentSystem.loop_body agents name st = Break st' /\
       current_data st' = current_data st /\
       results (goal st') = results (goal st) ++ [result]).
Proof.
  split; [reflexivity|].
  split; [exact loop_body_continue_data|].
  split; [exact loop_body_break_data|].
  split; [exact update_lookup|].
  split; [|split; [|split; [|split;
    [exact loop_body_success|exact loop_body_failure]]]].
  - intros d Ha. rewrite !update_lookup. repeat split.
    intros k Hka Hkb. rewrite update_lookup.
    rewrite lookup_insert_ne by congruence.
    rewrite lookup_singleton_ne by congruence. reflexivity.
  - intros t. apply map_eq. intros k. rewrite update_lookup.
    destruct (decide (k = "a")) as [->|Hka]; [reflexivity|].
    destruct (decide (k = "b")) as [->|Hkb]; [reflexivity|].
    rewrite !(lookup_insert_ne _ "a") by congruence.
    rewrite lookup_singleton_ne by congruence.
    rewrite (lookup_insert_ne _ "b") by congruence. reflexivity.
  - apply map_eq. intros k. rewrite update_lookup.
    destruct (decide (k = "k")) as [->|Hk]; [reflexivity|].
    rewrite !lookup_singleton_ne by congruence. reflexivity.
Qed.

Lemma C6_context_merge_witness :
  MultiAgentSystem.update {[ "a" := VInt 1; "z" := VBool true ]}
    {[ "a" := VInt 2; "b" := VInt 3 ]} !! "z"
  = Some (VBool true).
Proof.
  refine (eq_trans
            (proj2 (proj2 (proj1 (proj2 (proj2 (proj2 (proj2 C6_context_merge))))
                             {[ "a" := VInt 1; "z" := VBool true ]} eq_refl))
                   "z" _ _)
            eq_refl); discriminate.
Defined.

(** ** The evaluator *)

Lemma count_if_length (keep : AgentResult -> bool) (l : list AgentResult) :
  MultiAgentSystem.count_if keep l = length (List.filter keep l).
Proof.
  unfold MultiAgentSystem.count_if.
  induction l as [|r l IH]; simpl; [reflexivity|].
  destruct (keep r); simpl; now rewrite IH.
Qed.

(** The evaluator returns on every goal, with these fields. *)
Lemma evaluate_returns (g : Goal) :
  exists e : Evaluation,
    MultiAgentSystem.evaluate_goal_satisfaction g = Returned e /\
    goal_satisfied e = is_complete g /\
    total_agents_executed e = length (results g) /\
    successful_agents e = length (List.filter success (results g)) /\
    satisfaction_score e
    = match results g with
      | [] => PyInt 0
      | _ :: _ =>
          PyFloat (float_of_nat (length (List.filter success (results g)))
                   / float_of_nat (length (results g)) * 100)%float
      end.
Proof.
  unfold MultiAgentSystem.evaluate_goal_satisfaction.
  rewrite !count_if_length.
  destruct (results g) as [|r l] eqn:Hres.
  - eexists. split; [reflexivity|]. simpl. repeat split.
  - cbn [length truediv].
    eexists. split; [reflexivity|]. cbn [goal_satisfied total_agents_executed
      successful_agents satisfaction_score]. repeat split.
Qed.

(** C7: the evaluator never raises; its score is the integer 0 on an
    empty history and otherwise the binary64 value of
    successes / total * 100; [goal_satisfied] is the [is_complete] flag,
    hence false on every goal returned by a run that did not reach the
    end of its plan;
    with two successes among three records the score is the double
    nearest to 66.66..., which is 4691249611844266 * 2^-46 and lies
    within 10^-13 of 200/3. *)
Theorem C7_satisfaction_score :
  (forall g : Goal,
     exists e : Evaluation,
       MultiAgentSystem.evaluate_goal_satisfaction g = Returned e /\
       goal_satisfied e = is_complete g /\
       total_agents_executed e = length (results g) /\
       successful_agents e = length (List.filter success (results g)) /\
       satisfaction_score e
       = match results g with
         | [] => PyInt 0
         | _ :: _ =>
             PyFloat (float_of_nat (length (List.filter success (results g)))
                      / float_of_nat (length (results g)) * 100)%float
         end) /\
  (forall (g : Goal) (e : Evaluation),
     MultiAgentSystem.evaluate_goal_satisfaction g = Returned e ->
     length (results g) = 3 ->
     length (List.filter success (results g)) = 2 ->
     satisfaction_score e = PyFloat 0x1.0aaaaaaaaaaaap+6%float) /\
  (Prim2SF 0x1.0aaaaaaaaaaaap+6%float = S754_finite false 4691249611844266 (-46) /\
   (Z.abs (3 * 4691249611844266 - 200 * 2 ^ 46) * 10 ^ 13 < 3 * 2 ^ 46)%Z) /\
  (forall (ext : Collaborators) (goal_description : string) (max_iterations : Z)
          (g : Goal),
     MultiAgentSystem.execute_goal (MultiAgentSystem.__init__ ext)
       goal_description max_iterations = Some (Returned g) ->
     exists e : Evaluation,
       MultiAgentSystem.evaluate_goal_satisfaction g = Returned e /\
       (~ plan_completed g -> goal_satisfied e = false)).
Proof.
  split; [exact evaluate_returns|]. split; [|split].
  - intros g e He H3 H2.
    destruct (evaluate_returns g) as (e' & He' & _ & _ & _ & Hscore).
    rewrite He in He'. injection He' as <-.
    rewrite Hscore, H3, H2.
    destruct (results g); [discriminate|]. reflexivity.
  - split; vm_compute; reflexivity.
  - intros ext t m g Hrun.
    destruct (run_returned ext t m g Hrun) as (b & st & -> & Hp & _).
    destruct (evaluate_returns (MultiAgentSystem.finish st)) as (e & He & Hsat & _).
    exists e. split; [exact He|].
    intros Hnot. rewrite Hsat.
    destruct (is_complete (MultiAgentSystem.finish st)) eqn:Hc; [|reflexivity].
    exfalso. apply Hnot. apply (finish_complete_iff ext t m b st Hp). exact Hc.
Qed.

Lemma C7_satisfaction_score_witness :
  exists e : Evaluation,
    MultiAgentSystem.evaluate_goal_satisfaction two_of_three = Returned e /\
    satisfaction_score e = PyFloat 0x1.0aaaaaaaaaaaap+6%float /\
    goal_satisfied e = false.
Proof.
  destruct (proj1 C7_satisfaction_score two_of_three) as (e & He & Hsat & _).
  exists e. split; [exact He|]. split; [|exact Hsat].
  exact (proj1 (proj2 C7_satisfaction_score) two_of_three e He eq_refl eq_refl).
Defined.

(** * Further properties of the code *)

(** ** Further facts about the planner *)

Lemma lower_char_idempotent (c : ascii) : lower_char (lower_char c) = lower_char c.
Proof. destruct c as [[] [] [] [] [] [] [] []]; reflexivity. Qed.

Lemma lower_idempotent (s : string) : lower (lower s) = lower s.
Proof.
  induction s as [|c s IH]; simpl; [reflexivity|].
  now rewrite lower_char_idempotent, IH.
Qed.

(** X1: a plan has between one and five names, all of them registered
    agents other than the planner, none of them twice, and the
    summarizer can only be its last element. *)
Theorem X1_plan_structure (goal_description : string) :
  1 <= length (plan_for goal_description) <= 5 /\
  NoDup (plan_for goal_description) /\
  Forall (fun name => In name handler_names) (plan_for goal_description) /\
  (forall i : nat,
     plan_for goal_description !! i = Some "SummarizeAgent" ->
     S i = length (plan_for goal_description)).
Proof.
  rewrite plan_for_eq.
  split; [|split; [|split; [apply analyze_goal_names|]]];
    unfold PlannerAgent._analyze_goal;
    destruct (any_keyword_in PlannerAgent.spacex_keywords (lower goal_description));
    destruct (any_keyword_in PlannerAgent.weather_keywords (lower goal_description));
    destruct (any_keyword_in PlannerAgent.news_keywords (lower goal_description));
    destruct (any_keyword_in PlannerAgent.crypto_keywords (lower goal_description));
    destruct (any_keyword_in PlannerAgent.summary_keywords (lower goal_description));
    cbn [length app Nat.ltb Nat.leb orb].
  1-32: lia.
  1-32: apply (bool_decide_unpack _); vm_compute; reflexivity.
  all: intros [|[|[|[|[|i]]]]] H; simpl in H; try discriminate; reflexivity.
Qed.

(** X2: when exactly one domain matches, the plan is that domain's
    handler alone, followed by the summarizer only if the text holds a
    summarization keyword. *)
Theorem X2_single_domain (goal_description handler : string) :
  matched_handlers goal_description = [handler] ->
  plan_for goal_description
  = if matches PlannerAgent.summary_keywords goal_description
    then [handler; "SummarizeAgent"]
    else [handler].
Proof.
  rewrite plan_for_eq.
  unfold matched_handlers, matches, PlannerAgent._analyze_goal.
  cbv [domain_table List.filter map fst snd].
  destruct (any_keyword_in PlannerAgent.spacex_keywords (lower goal_description));
  destruct (any_keyword_in PlannerAgent.weather_keywords (lower goal_description));
  destruct (any_keyword_in PlannerAgent.news_keywords (lower goal_description));
  destruct (any_keyword_in PlannerAgent.crypto_keywords (lower goal_description));
  intros [= <-];
  destruct (any_keyword_in PlannerAgent.summary_keywords (lower goal_description));
  reflexivity.
Qed.

Lemma X2_single_domain_witness :
  matched_handlers "Will it RAIN tomorrow?" = ["WeatherAgent"] /\
  plan_for "Will it RAIN tomorrow?" = ["WeatherAgent"].
Proof.
  split; [reflexivity|].
  exact (X2_single_domain "Will it RAIN tomorrow?" "WeatherAgent" eq_refl).
Defined.

(** X3: planning ignores letter case: a text and its lower-cased form
    have the same plan, and so have any two texts that differ only in
    case. *)
Theorem X3_case_insensitive :
  (forall goal_description : string,
     plan_for (lower goal_description) = plan_for goal_description) /\
  (forall t1 t2 : string, lower t1 = lower t2 -> plan_for t1 = plan_for t2).
Proof.
  split.
  - intros t. rewrite !plan_for_eq, lower_idempotent. reflexivity.
  - intros t1 t2 H. rewrite !plan_for_eq, H. reflexivity.
Qed.

Lemma X3_case_insensitive_witness :
  plan_for "BITCOIN News" = plan_for "bitcoin news".
Proof. exact (proj2 X3_case_insensitive "BITCOIN News" "bitcoin news" eq_refl). Defined.

Lemma contains_widen (kw a s b : string) :
  contains kw s = true -> contains kw (a +:+ s +:+ b) = true.
Proof.
  intros H. apply contains_inv in H as (x & y & ->).
  rewrite !append_assoc, <- (append_assoc a x). apply contains_append.
Qed.

Lemma any_keyword_in_widen (keywords : list string) (a s b : string) :
  any_keyword_in keywords s = true ->
  any_keyword_in keywords (a +:+ s +:+ b) = true.
Proof.
  unfold any_keyword_in. rewrite !existsb_exists.
  intros (kw & Hin & Hc). exists kw. split; [exact Hin|].
  now apply contains_widen.
Qed.

Lemma matched_handlers_row (goal_description handler : string) :
  In handler (matched_handlers goal_description) <->
  exists keywords : list string,
    In (keywords, handler) domain_table /\
    any_keyword_in keywords (lower goal_description) = true.
Proof.
  unfold matched_handlers. rewrite in_map_iff. split.
  - intros ([kws h] & <- & Hin). apply filter_In in Hin as [Hin Hany].
    exists kws. now split.
  - intros (kws & Hin & Hany). exists (kws, handler). split; [reflexivity|].
    apply filter_In. now split.
Qed.

(** X4: text added before or after a goal never removes a matched
    domain: every handler matched by a text is matched by, and planned
    for, any longer text that contains it. *)
Theorem X4_matching_monotone (a goal_description b handler : string) :
  In handler (matched_handlers goal_description) ->
  In handler (matched_handlers (a +:+ goal_description +:+ b)) /\
  In handler (plan_for (a +:+ goal_description +:+ b)).
Proof.
  intros H. apply matched_handlers_row in H as (kws & Hrow & Hany).
  assert (any_keyword_in kws (lower (a +:+ goal_description +:+ b)) = true) as Hany'.
  { rewrite !lower_append. now apply any_keyword_in_widen. }
  split.
  - apply matched_handlers_row. exists kws. now split.
  - unfold any_keyword_in in Hany'. apply existsb_exists in Hany' as (kw & Hkw & Hc).
    exact (keyword_selects_handler _ kw handler kws Hrow Hkw Hc).
Qed.

Lemma X4_matching_monotone_witness :
  In "CryptoAgent" (plan_for ("Please " +:+ "check BTC" +:+ " and the weather")).
Proof.
  refine (proj2 (X4_matching_monotone "Please " "check BTC" " and the weather"
                   "CryptoAgent" _)).
  vm_compute. left. reflexivity.
Defined.

(** X5: [PlannerAgent.execute] on any context: without a "goal" entry it
    plans for the empty text, which gives the default plan and records
    [None] as the original goal; with a "goal" that is not a string it
    raises; with a string it returns the planner's record for it. A
    record it returns always reports success, names a registered agent
    as the next one and has exactly the keys "plan" and
    "original_goal". *)
Theorem X5_planner_execute :
  (forall d : gmap string Value,
     d !! "goal" = None ->
     PlannerAgent.execute d
     = Returned
         (mkAgentResult "Planner" true
            {[ "plan" := VNames ["NewsAgent"; "SummarizeAgent"];
               "original_goal" := VNone ]}
            "Created execution plan with 2 steps" (Some "NewsAgent"))) /\
  (forall (d : gmap string Value) (v : Value),
     d !! "goal" = Some v ->
     (forall s : string, v <> VStr s) ->
     PlannerAgent.execute d = Raised) /\
  (forall (d : gmap string Value) (s : string),
     d !! "goal" = Some (VStr s) ->
     PlannerAgent.execute d = Returned (planner_result s)) /\
  (forall (d : gmap string Value) (r : AgentResult),
     PlannerAgent.execute d = Returned r ->
     success r = true /\
     (exists name : string, next_agent r = Some name /\ In name handler_names) /\
     dom (data r) = {[ "plan"; "original_goal" ]}).
Proof.
  split; [|split; [|split]].
  - intros d H. unfold PlannerAgent.execute, PlannerAgent.goal_text_of.
    rewrite H. reflexivity.
  - intros d v H Hv. unfold PlannerAgent.execute, PlannerAgent.goal_text_of.
    rewrite H. destruct v; try reflexivity. now destruct (Hv s).
  - intros d s H. unfold PlannerAgent.execute, PlannerAgent.goal_text_of.
    rewrite H. reflexivity.
  - intros d r. unfold PlannerAgent.execute.
    destruct (PlannerAgent.goal_text_of d) as [|t]; [discriminate|].
    intros [= <-]. cbn [success next_agent data].
    split; [reflexivity|]. split.
    + pose proof (analyze_goal_nonempty t) as Hne.
      pose proof (analyze_goal_names t) as Hin.
      destruct (PlannerAgent._analyze_goal t) as [|name p]; [contradiction|].
      exists name. split; [reflexivity|]. now inversion Hin.
    + rewrite dom_insert_L, dom_singleton_L. reflexivity.
Qed.

Lemma X5_planner_execute_witness :
  PlannerAgent.execute {[ "goal" := VInt 7 ]} = Raised /\
  PlannerAgent.execute {[ "topic" := VStr "bitcoin" ]}
  = Returned
      (mkAgentResult "Planner" true
         {[ "plan" := VNames ["NewsAgent"; "SummarizeAgent"];
            "original_goal" := VNone ]}
         "Created execution plan with 2 steps" (Some "NewsAgent")).
Proof.
  split.
  - refine (proj1 (proj2 X5_planner_execute) {[ "goal" := VInt 7 ]} (VInt 7) eq_refl _).
    discriminate.
  - exact (proj1 X5_planner_execute {[ "topic" := VStr "bitcoin" ]} eq_refl).
Defined.

(** X6: with a ceiling of zero or less no agent runs, whatever the
    registry: the goal comes back with an empty plan, an empty history
    and [is_complete] false. *)
Theorem X6_no_budget (agents : gmap string Agent) (goal_description : string)
    (max_iterations : Z) :
  (max_iterations <= 0)%Z ->
  MultiAgentSystem.execute_goal agents goal_description max_iterations
  = Some (Returned (mkGoal goal_description [] 0 [] false)).
Proof.
  intros Hmax.
  unfold MultiAgentSystem.execute_goal, MultiAgentSystem.execute_goal_fuel.
  rewrite while_loop_exit; [reflexivity|].
  unfold MultiAgentSystem.loop_cond. apply andb_false_iff. right.
  apply Z.ltb_ge. simpl. lia.
Qed.

Lemma X6_no_budget_witness :
  (-3 <= 0)%Z /\
  MultiAgentSystem.execute_goal (MultiAgentSystem.__init__ all_succeed) launch_goal (-3)
  = Some (Returned (mkGoal launch_goal [] 0 [] false)).
Proof.
  assert (-3 <= 0)%Z as H by (vm_compute; discriminate).
  split; [exact H|].
  exact (X6_no_budget (MultiAgentSystem.__init__ all_succeed) launch_goal (-3) H).
Defined.

(** X7: an agent name the registry does not hold stops the run on the
    spot: the pass appends no record and leaves goal and context as they
    were. So a registry without planner returns the untouched goal, and
    a registry with only the planner returns, for a ceiling of two or
    more, the planned goal with the planner's record alone; neither is
    complete. *)
Theorem X7_unknown_agent :
  (forall (agents : gmap string Agent) (name : string) (st : LoopState),
     agents !! name = None ->
     MultiAgentSystem.loop_body agents name st
     = Break (mkLoopState (goal st) (current_data st) (Some name)
                          (iteration st + 1))) /\
  (forall (agents : gmap string Agent) (goal_description : string)
          (max_iterations : Z),
     agents !! "PlannerAgent" = None ->
     MultiAgentSystem.execute_goal agents goal_description max_iterations
     = Some (Returned (mkGoal goal_description [] 0 [] false))) /\
  (forall (goal_description : string) (max_iterations : Z),
     (2 <= max_iterations)%Z ->
     MultiAgentSystem.execute_goal planner_only goal_description max_iterations
     = Some (Returned (mkGoal goal_description (plan_for goal_description) 0
                              [planner_result goal_description] false))).
Proof.
  split; [|split].
  - intros agents name st H. unfold MultiAgentSystem.loop_body, Agent in *.
    rewrite H. reflexivity.
  - intros agents t m H.
    destruct (Z_le_gt_dec m 0) as [Hle|Hgt]; [now apply X6_no_budget|].
    unfold MultiAgentSystem.execute_goal, MultiAgentSystem.execute_goal_fuel.
    destruct (Z.to_nat m) as [|fuel] eqn:Hf; [lia|].
    rewrite (while_loop_pass _ _ _ _ "PlannerAgent"); [| reflexivity |].
    + unfold MultiAgentSystem.loop_body, Agent in *. rewrite H. reflexivity.
    + unfold MultiAgentSystem.loop_cond. apply andb_true_iff. split; [reflexivity|].
      apply Z.ltb_lt. simpl. lia.
  - intros t m Hm.
    unfold MultiAgentSystem.execute_goal, MultiAgentSystem.execute_goal_fuel.
    destruct (Z.to_nat m) as [|[|fuel]] eqn:Hf; [lia|lia|].
    rewrite (while_loop_pass _ _ _ _ "PlannerAgent"); [| reflexivity |].
    2:{ unfold MultiAgentSystem.loop_cond. apply andb_true_iff.
        split; [reflexivity|]. apply Z.ltb_lt. simpl. lia. }
    change (MultiAgentSystem.loop_body planner_only "PlannerAgent"
              (MultiAgentSystem.initial t))
      with (Continue
              (mkLoopState
                 (mkGoal t (plan_for t) 0 [planner_result t] false)
                 (MultiAgentSystem.update {[ "goal" := VStr t ]}
                    (data (planner_result t)))
                 (head (plan_for t)) 1)).
    cbv iota.
    destruct (plan_for t) as [|name p] eqn:HP.
    { exfalso. revert HP. rewrite plan_for_eq. apply analyze_goal_nonempty. }
    assert (In name handler_names) as Hin.
    { apply (plan_for_names t name 0). now rewrite HP. }
    destruct (handler_not_planner name Hin) as [Hne Ht].
    rewrite (while_loop_pass _ _ _ _ name); [| reflexivity |].
    + unfold MultiAgentSystem.loop_body, planner_only, Agent.
      rewrite lookup_singleton_ne by congruence. reflexivity.
    + unfold MultiAgentSystem.loop_cond. cbn [current_agent iteration head].
      rewrite Ht. apply Z.ltb_lt. lia.
Qed.

Lemma X7_unknown_agent_witness :
  MultiAgentSystem.execute_goal planner_only "hello" 5
  = Some (Returned (mkGoal "hello" (plan_for "hello") 0 [planner_result "hello"] false)).
Proof.
  refine (proj2 (proj2 X7_unknown_agent) "hello" 5%Z _).
  vm_compute. discriminate.
Defined.

(** X8: in the system built by [__init__] the loop never meets an
    unknown agent: at every point at the head of the loop the current
    agent, if any, is registered and has a non-empty name; and every
    pass that ends without an exception appends exactly one record, so
    that at every point of the run (the head of the loop, the state
    left by a [break]) the iteration count is the length of the
    history. *)
Theorem X8_every_pass_invokes (ext : Collaborators) (goal_description : string)
    (max_iterations : Z) (b : bool) (st : LoopState) :
  point (MultiAgentSystem.__init__ ext) max_iterations goal_description b st ->
  iteration st = Z.of_nat (length (results (goal st))) /\
  (b = true ->
   forall name : string,
     current_agent st = Some name ->
     truthy (Some name) = true /\
     is_Some (MultiAgentSystem.__init__ ext !! name)).
Proof.
  intros Hp. apply point_shape in Hp.
  inversion Hp as [Hst|g d name i Hplan Hok Hal Hcur Hlen Hi Hst
                  |g d i Hplan Hok Hal Hend Hlen Hi Hst
                  |g d name i rs r Hplan Hres Hr Hok Hal Hby Hcur Hlen Hi Hst];
    subst; simpl.
  - split; [reflexivity|]. intros _ name [= <-]. split; [reflexivity|].
    eexists. apply lookup_planner.
  - split; [reflexivity|]. intros _ name' [= <-].
    assert (In name handler_names) as Hin
      by (apply (plan_for_names goal_description name (current_step g));
          rewrite <- Hplan; exact Hcur).
    destruct (handler_not_planner name Hin) as [_ Ht].
    destruct (lookup_handler ext name Hin) as (a & Ha & _).
    split; [exact Ht|]. eexists. exact Ha.
  - split; [reflexivity|]. intros _ name [=].
  - split; [reflexivity|]. intros [=].
Qed.

Lemma X8_every_pass_invokes_witness :
  iteration (MultiAgentSystem.initial "hello")
  = Z.of_nat (length (results (goal (MultiAgentSystem.initial "hello")))) /\
  (true = true ->
   forall name : string,
     current_agent (MultiAgentSystem.initial "hello") = Some name ->
     truthy (Some name) = true /\
     is_Some (MultiAgentSystem.__init__ all_succeed !! name)).
Proof.
  exact (X8_every_pass_invokes all_succeed "hello" 3 true _
           (point_initial (MultiAgentSystem.__init__ all_succeed) 3 "hello")).
Defined.

(** A pass keeps the description and only appends to the history. *)
Lemma loop_body_history (agents : gmap string Agent) (name : string)
    (st st' : LoopState) :
  MultiAgentSystem.loop_body agents name st = Continue st' \/
  MultiAgentSystem.loop_body agents name st = Break st' ->
  description (goal st') = description (goal st) /\
  exists l : list AgentResult, results (goal st') = results (goal st) ++ l.
Proof.
  unfold MultiAgentSystem.loop_body.
  destruct (agents !! name) as [agent|].
  - destruct (agent (current_data st)) as [|result].
    + intros [H|H]; discriminate.
    + destruct (success result); simpl.
      * destruct (decide (name = "PlannerAgent")), (data result !! "plan");
          try destruct (_ && _);
          (intros [[= <-]|H]; [|discriminate]); simpl; eauto.
      * intros [H|[= <-]]; [discriminate|]. simpl. eauto.
  - intros [H|[= <-]]; [discriminate|]. simpl.
    split; [reflexivity|]. exists []. now rewrite app_nil_r.
Qed.

(** The description never changes, and a history that is not empty
    starts with the planner's record. *)
Lemma point_history (ext : Collaborators) (goal_description : string)
    (max_iterations : Z) (b : bool) (st : LoopState) :
  point (MultiAgentSystem.__init__ ext) max_iterations goal_description b st ->
  description (goal st) = goal_description /\
  (st = MultiAgentSystem.initial goal_description \/
   head (results (goal st)) = Some (planner_result goal_description)).
Proof.
  induction 1 as [|st st' name Hp [IHd IHh] Hn Hc Hb|st st' name Hp [IHd IHh] Hn Hc Hb].
  - split; [reflexivity|now left].
  - destruct (loop_body_history _ _ _ _ (or_introl Hb)) as [Hd [l Hl]].
    split; [congruence|]. right. destruct IHh as [->|Hh].
    + simpl in Hn. injection Hn as <-.
      rewrite loop_body_initial in Hb. injection Hb as <-. reflexivity.
    + rewrite Hl. destruct (results (goal st)); [discriminate|exact Hh].
  - destruct (loop_body_history _ _ _ _ (or_intror Hb)) as [Hd [l Hl]].
    split; [congruence|]. right. destruct IHh as [->|Hh].
    + simpl in Hn. injection Hn as <-.
      rewrite loop_body_initial in Hb. discriminate.
    + rewrite Hl. destruct (results (goal st)); [discriminate|exact Hh].
Qed.

(** X9: with a ceiling of one or more, a goal that is returned carries
    the description it was given and the planner's plan for it,
    whatever the agents store under "plan"; its history starts with the
    planner's record; and its cursor stays strictly inside the plan, on
    the last step when the goal is complete. *)
Theorem X9_returned_goal (ext : Collaborators) (goal_description : string)
    (max_iterations : Z) (g : Goal) :
  (1 <= max_iterations)%Z ->
  MultiAgentSystem.execute_goal (MultiAgentSystem.__init__ ext)
    goal_description max_iterations = Some (Returned g) ->
  description g = goal_description /\
  plan g = plan_for goal_description /\
  head (results g) = Some (planner_result goal_description) /\
  current_step g < length (plan g) /\
  (is_complete g = true -> S (current_step g) = length (plan g)).
Proof.
  intros Hmax Hrun.
  destruct (run_returned ext goal_description max_iterations g Hrun)
    as (b & st & -> & Hp & Hc).
  pose proof (point_history _ _ _ _ _ Hp) as Hph.
  pose proof (point_shape _ _ _ _ _ Hp) as Hs.
  clear Hrun.
  inversion Hs as [Hst|g d name i Hplan Hok Hal Hcur Hlen Hi Hst
                  |g d i Hplan Hok Hal Hend Hlen Hi Hst
                  |g d name i rs r Hplan Hres Hr Hok Hal Hby Hcur Hlen Hi Hst];
    subst; destruct Hph as [Hd Hh]; simpl in *.
  - exfalso. specialize (Hc eq_refl).
    unfold MultiAgentSystem.loop_cond in Hc. simpl in Hc.
    apply Z.ltb_ge in Hc. lia.
  - destruct Hh as [Hh|Hh]; [injection Hh as Hg _ _ _; rewrite Hg in Hlen; simpl in Hlen; lia|].
    apply lookup_lt_Some in Hcur. repeat split; auto. discriminate.
  - destruct Hh as [Hh|Hh]; [discriminate Hh|].
    repeat split; auto. lia.
  - destruct Hh as [Hh|Hh]; [injection Hh as Hg _ _ _; rewrite Hg in Hlen; simpl in Hlen; lia|].
    apply lookup_lt_Some in Hcur. repeat split; auto. discriminate.
Qed.

Lemma X9_returned_goal_witness :
  (1 <= 2)%Z /\
  match MultiAgentSystem.execute_goal (MultiAgentSystem.__init__ weather_fails)
          launch_goal 2 with
  | Some (Returned g) =>
      description g = launch_goal /\
      plan g = plan_for launch_goal /\
      head (results g) = Some (planner_result launch_goal) /\
      current_step g < length (plan g) /\
      (is_complete g = true -> S (current_step g) = length (plan g))
  | _ => False
  end.
Proof.
  assert (1 <= 2)%Z as H by (vm_compute; discriminate).
  split; [exact H|].
  destruct (MultiAgentSystem.execute_goal (MultiAgentSystem.__init__ weather_fails)
          launch_goal 2)
    as [[|g]|] eqn:Hrun.
  - vm_compute in Hrun. discriminate Hrun.
  - exact (X9_returned_goal weather_fails launch_goal 2 g H Hrun).
  - vm_compute in Hrun. discriminate Hrun.
Defined.

(** X10: in a goal that is returned, the history never has more records
    than the plan has steps, plus one for the planner; and when no
    record reports failure it has exactly as many as the ceiling allows,
    up to that number. *)
Theorem X10_history_length (ext : Collaborators) (goal_description : string)
    (max_iterations : Z) (g : Goal) :
  (0 <= max_iterations)%Z ->
  MultiAgentSystem.execute_goal (MultiAgentSystem.__init__ ext)
    goal_description max_iterations = Some (Returned g) ->
  length (results g) <= S (length (plan_for goal_description)) /\
  (Forall succeeded (results g) ->
   Z.of_nat (length (results g))
   = Z.min max_iterations (Z.of_nat (S (length (plan_for goal_description))))).
Proof.
  intros Hmax Hrun.
  destruct (run_returned ext goal_description max_iterations g Hrun)
    as (b & st & -> & Hp & Hc).
  destruct (point_bound _ _ _ _ _ Hp) as [Hb1 Hb2].
  pose proof (point_shape _ _ _ _ _ Hp) as Hs.
  clear Hrun.
  inversion Hs as [Hst|g d name i Hplan Hok Hal Hcur Hlen Hi Hst
                  |g d i Hplan Hok Hal Hend Hlen Hi Hst
                  |g d name i rs r Hplan Hres Hr Hok Hal Hby Hcur Hlen Hi Hst];
    subst; simpl in *.
  - split; [lia|]. intros _. specialize (Hc eq_refl).
    unfold MultiAgentSystem.loop_cond in Hc. simpl in Hc.
    apply Z.ltb_ge in Hc. lia.
  - apply lookup_lt_Some in Hcur as Hlt. rewrite <- Hplan.
    split; [lia|]. intros _. specialize (Hc eq_refl).
    unfold MultiAgentSystem.loop_cond in Hc. cbn [current_agent iteration] in Hc.
    assert (In name handler_names) as Hin
      by (apply (plan_for_names goal_description name (current_step g));
          rewrite <- Hplan; exact Hcur).
    destruct (handler_not_planner name Hin) as [_ Ht]. rewrite Ht in Hc.
    apply Z.ltb_ge in Hc. lia.
  - rewrite <- Hplan. split; [lia|]. intros _. lia.
  - apply lookup_lt_Some in Hcur as Hlt. rewrite <- Hplan.
    split; [lia|]. intros Hall. exfalso.
    rewrite Hres in Hall. apply Forall_app in Hall as [_ Hall].
    inversion Hall as [|? ? Hsr _]; subst. unfold succeeded in Hsr. congruence.
Qed.

Lemma X10_history_length_witness :
  (0 <= 3)%Z /\
  match MultiAgentSystem.execute_goal (MultiAgentSystem.__init__ all_succeed)
          launch_goal 3 with
  | Some (Returned g) =>
      length (results g) <= S (length (plan_for launch_goal)) /\
      (Forall succeeded (results g) ->
       Z.of_nat (length (results g))
       = Z.min 3 (Z.of_nat (S (length (plan_for launch_goal)))))
  | _ => False
  end.
Proof.
  assert (0 <= 3)%Z as H by (vm_compute; discriminate).
  split; [exact H|].
  destruct (MultiAgentSystem.execute_goal (MultiAgentSystem.__init__ all_succeed)
          launch_goal 3)
    as [[|g]|] eqn:Hrun.
  - vm_compute in Hrun. discriminate Hrun.
  - exact (X10_history_length all_succeed launch_goal 3 g H Hrun).
  - vm_compute in Hrun. discriminate Hrun.
Defined.

(** ** Runs that differ only in what the loop does not read *)

Lemma same_outcome_refl (r : AgentResult) : same_outcome r r.
Proof. now split. Qed.

Lemma same_agent_refl (a : Agent) : same_agent a a.
Proof. intros d. destruct (a d); [exact I|apply same_outcome_refl]. Qed.

Lemma same_registry_init (ext ext' : Collaborators) :
  same_collaborators ext ext' ->
  same_registry (MultiAgentSystem.__init__ ext) (MultiAgentSystem.__init__ ext').
Proof.
  intros (H1 & H2 & H3 & H4 & H5) name. unfold MultiAgentSystem.__init__.
  rewrite !lookup_insert, !lookup_singleton.
  repeat case_decide; try exact I; try apply same_agent_refl; assumption.
Qed.

(** A pass from two states of the same control, in registries of the
    same outcomes, ends the same way in states of the same control. *)
Lemma loop_body_same (agents agents' : gmap string Agent) (name : string)
    (st st' : LoopState) :
  same_registry agents agents' ->
  same_state st st' ->
  match MultiAgentSystem.loop_body agents name st,
        MultiAgentSystem.loop_body agents' name st' with
  | Break s, Break s' => same_state s s'
  | Continue s, Continue s' => same_state s s'
  | Raise, Raise => True
  | _, _ => False
  end.
Proof.
  intros Hreg ((Hd & Hp & Hc & Hf & Hr) & Hdata & Hagent & Hiter).
  specialize (Hreg name). unfold MultiAgentSystem.loop_body.
  destruct (agents !! name) as [a|], (agents' !! name) as [a'|];
    try contradiction.
  - specialize (Hreg (current_data st)). rewrite <- Hdata.
    destruct (a (current_data st)) as [|r], (a' (current_data st)) as [|r'];
      try contradiction; [exact I|].
    destruct Hreg as [Hs Hdt]. rewrite <- Hs, <- Hdt, <- Hp, <- Hc, <- Hiter.
    assert (Forall2 same_outcome (results (goal st) ++ [r])
                                 (results (goal st') ++ [r'])) as Hr'.
    { apply Forall2_app; [exact Hr|]. constructor; [now split|constructor]. }
    destruct (success r); simpl.
    + destruct (decide (name = "PlannerAgent")), (data r !! "plan");
        try destruct (_ && _); repeat split; simpl; auto.
    + repeat split; simpl; auto.
  - rewrite <- Hiter. repeat split; simpl; auto.
Qed.

Lemma while_loop_same (agents agents' : gmap string Agent) (max_iterations : Z)
    (fuel : nat) (st st' : LoopState) :
  same_registry agents agents' ->
  same_state st st' ->
  match MultiAgentSystem.while_loop fuel agents max_iterations st,
        MultiAgentSystem.while_loop fuel agents' max_iterations st' with
  | Some (Returned s), Some (Returned s') => same_state s s'
  | Some Raised, Some Raised => True
  | None, None => True
  | _, _ => False
  end.
Proof.
  intros Hreg. revert st st'. induction fuel as [|fuel IH]; intros st st' Hst.
  - simpl. pose proof Hst as (_ & _ & Hagent & Hiter).
    unfold MultiAgentSystem.loop_cond. rewrite <- Hagent, <- Hiter.
    destruct (current_agent st); [|exact Hst].
    destruct (_ && _); [exact I|exact Hst].
  - simpl. pose proof Hst as (_ & _ & Hagent & Hiter).
    unfold MultiAgentSystem.loop_cond. rewrite <- Hagent, <- Hiter.
    destruct (current_agent st) as [name|]; [|exact Hst].
    destruct (_ && _); [|exact Hst].
    pose proof (loop_body_same agents agents' name st st' Hreg Hst) as Hb.
    destruct (MultiAgentSystem.loop_body agents name st) as [s|s|],
             (MultiAgentSystem.loop_body agents' name st') as [s'|s'|];
      try contradiction; [exact Hb|exact (IH s s' Hb)|exact I].
Qed.

(** X11: the loop reads only the success flag and the data of a result.
    Two sets of collaborators that raise on the same contexts and whose
    results agree on these two fields, whatever names, messages and
    next-agent hints they carry, give runs that end the same way: both
    raise, or both return goals with the same description, plan, cursor
    and completion flag and with histories that agree record by record
    on success and data. *)
Theorem X11_hints_ignored (ext ext' : Collaborators) (goal_description : string)
    (max_iterations : Z) :
  same_collaborators ext ext' ->
  (MultiAgentSystem.execute_goal (MultiAgentSystem.__init__ ext)
     goal_description max_iterations = Some Raised /\
   MultiAgentSystem.execute_goal (MultiAgentSystem.__init__ ext')
     goal_description max_iterations = Some Raised) \/
  (exists g g' : Goal,
     MultiAgentSystem.execute_goal (MultiAgentSystem.__init__ ext)
       goal_description max_iterations = Some (Returned g) /\
     MultiAgentSystem.execute_goal (MultiAgentSystem.__init__ ext')
       goal_description max_iterations = Some (Returned g') /\
     same_goal g g').
Proof.
  intros Hext.
  destruct (run_ends (MultiAgentSystem.__init__ ext) goal_description
              max_iterations) as [o Ho].
  destruct (run_ends (MultiAgentSystem.__init__ ext') goal_description
              max_iterations) as [o' Ho'].
  rewrite Ho, Ho'.
  unfold MultiAgentSystem.execute_goal, MultiAgentSystem.execute_goal_fuel in Ho, Ho'.
  pose proof (while_loop_same _ _ max_iterations (Z.to_nat max_iterations)
                (MultiAgentSystem.initial goal_description)
                (MultiAgentSystem.initial goal_description)
                (same_registry_init ext ext' Hext)) as Hsim.
  destruct (MultiAgentSystem.while_loop _ (MultiAgentSystem.__init__ ext) _ _)
    as [[|s]|]; [| |discriminate];
  destruct (MultiAgentSystem.while_loop _ (MultiAgentSystem.__init__ ext') _ _)
    as [[|s']|]; try discriminate;
  injection Ho as <-; injection Ho' as <-.
  - now left.
  - exfalso. apply Hsim. repeat split; constructor.
  - exfalso. apply Hsim. repeat split; constructor.
  - right. exists (MultiAgentSystem.finish s), (MultiAgentSystem.finish s').
    split; [reflexivity|]. split; [reflexivity|].
    assert (same_state s s') as ((Hd & Hp & Hc & Hf & Hr) & _ & Hagent & _).
    { apply Hsim. repeat split; constructor. }
    unfold same_goal, MultiAgentSystem.finish. simpl.
    rewrite Hagent. repeat split; auto.
Qed.

Lemma X11_hints_ignored_witness :
  (MultiAgentSystem.execute_goal (MultiAgentSystem.__init__ all_succeed)
     launch_goal 10 = Some Raised /\
   MultiAgentSystem.execute_goal (MultiAgentSystem.__init__ misleading)
     launch_goal 10 = Some Raised) \/
  (exists g g' : Goal,
     MultiAgentSystem.execute_goal (MultiAgentSystem.__init__ all_succeed)
       launch_goal 10 = Some (Returned g) /\
     MultiAgentSystem.execute_goal (MultiAgentSystem.__init__ misleading)
       launch_goal 10 = Some (Returned g') /\
     same_goal g g').
Proof.
  apply (X11_hints_ignored all_succeed misleading launch_goal 10).
  repeat split; intros d; split; reflexivity.
Defined.

(** ** Keys of the shared context *)

Lemma update_keeps_key (current_data new_data : gmap string Value) (k : string) :
  is_Some (current_data !! k) ->
  is_Some (MultiAgentSystem.update current_data new_data !! k).
Proof.
  intros H. rewrite update_lookup. destruct (new_data !! k); [eauto|exact H].
Qed.

Lemma loop_body_keeps_key (agents : gmap string Agent) (name : string)
    (st st' : LoopState) (k : string) :
  MultiAgentSystem.loop_body agents name st = Continue st' \/
  MultiAgentSystem.loop_body agents name st = Break st' ->
  is_Some (current_data st !! k) ->
  is_Some (current_data st' !! k).
Proof.
  intros [H|H] Hk.
  - destruct (loop_body_continue_data _ _ _ _ H) as (a & r & _ & _ & _ & ->).
    now apply update_keeps_key.
  - now rewrite (loop_body_break_data _ _ _ _ H).
Qed.

(** X12: no pass removes a key from the shared context; and from the
    planner's pass on, the context holds the keys "goal", "plan" and
    "original_goal", so every agent of the plan is called with them. *)
Theorem X12_context_keys (ext : Collaborators) (goal_description : string)
    (max_iterations : Z) :
  (forall (agents : gmap string Agent) (name : string) (st st' : LoopState)
          (k : string),
     MultiAgentSystem.loop_body agents name st = Continue st' \/
     MultiAgentSystem.loop_body agents name st = Break st' ->
     is_Some (current_data st !! k) ->
     is_Some (current_data st' !! k)) /\
  (forall (b : bool) (st : LoopState),
     point (MultiAgentSystem.__init__ ext) max_iterations goal_description b st ->
     (1 <= iteration st)%Z ->
     is_Some (current_data st !! "goal") /\
     is_Some (current_data st !! "plan") /\
     is_Some (current_data st !! "original_goal")).
Proof.
  split; [exact loop_body_keeps_key|].
  assert (forall (st st' : LoopState) (name : string),
            point (MultiAgentSystem.__init__ ext) max_iterations goal_description
                  true st ->
            ((1 <= iteration st)%Z ->
             is_Some (current_data st !! "goal") /\
             is_Some (current_data st !! "plan") /\
             is_Some (current_data st !! "original_goal")) ->
            current_agent st = Some name ->
            MultiAgentSystem.loop_body (MultiAgentSystem.__init__ ext) name st
            = Continue st' \/
            MultiAgentSystem.loop_body (MultiAgentSystem.__init__ ext) name st
            = Break st' ->
            is_Some (current_data st' !! "goal") /\
            is_Some (current_data st' !! "plan") /\
            is_Some (current_data st' !! "original_goal")) as Hstep.
  { intros st st' name Hp IH Hn Hb.
    pose proof (point_shape _ _ _ _ _ Hp) as Hs.
    inversion Hs as [Hst|g d name' i Hplan Hok Hal Hcur Hlen Hi Hst
                    |g d i Hplan Hok Hal Hend Hlen Hi Hst|]; subst st.
    - simpl in Hn. injection Hn as <-. rewrite loop_body_initial in Hb.
      destruct Hb as [[= <-]|Hb]; [|discriminate].
      cbn [current_data]. rewrite !update_lookup. repeat split; eauto.
    - destruct IH as (H1 & H2 & H3); [simpl; lia|].
      repeat split; eapply loop_body_keeps_key; eauto.
    - simpl in Hn. discriminate. }
  intros b st Hp. induction Hp as [|st st' name Hp IH Hn Hc Hb|st st' name Hp IH Hn Hc Hb].
  - simpl. lia.
  - intros _. eapply Hstep; eauto.
  - intros _. eapply Hstep; eauto.
Qed.

Lemma X12_context_keys_witness :
  is_Some (MultiAgentSystem.update {[ "goal" := VStr "hello" ]}
             (data (planner_result "hello")) !! "goal") /\
  is_Some (MultiAgentSystem.update {[ "goal" := VStr "hello" ]}
             (data (planner_result "hello")) !! "plan") /\
  is_Some (MultiAgentSystem.update {[ "goal" := VStr "hello" ]}
             (data (planner_result "hello")) !! "original_goal").
Proof.
  refine (proj2 (X12_context_keys all_succeed "hello" 5) true
            (mkLoopState
               (mkGoal "hello" (plan_for "hello") 0 [planner_result "hello"] false)
               (MultiAgentSystem.update {[ "goal" := VStr "hello" ]}
                  (data (planner_result "hello")))
               (head (plan_for "hello")) 1)
            _ _).
  - refine (point_continue _ _ _ _ _ "PlannerAgent" (point_initial _ _ _) _ _ _);
      reflexivity.
  - vm_compute. discriminate.
Defined.

(** ** Further facts about the evaluator *)

Lemma filter_split_length (keep : AgentResult -> bool) (l : list AgentResult) :
  length (List.filter keep l) + length (List.filter (fun r => negb (keep r)) l)
  = length l.
Proof.
  induction l as [|r l IH]; simpl; [reflexivity|].
  destruct (keep r); simpl; lia.
Qed.

(** The dictionary the evaluator returns, field by field. *)
Lemma evaluate_eq (g : Goal) :
  MultiAgentSystem.evaluate_goal_satisfaction g
  = Returned
      (mkEvaluation (is_complete g) (length (results g))
         (length (List.filter success (results g)))
         (length (List.filter (fun r => negb (success r)) (results g)))
         (map agent_name (results g)) (last (results g))
         match results g with
         | [] => PyInt 0
         | _ :: _ =>
             PyFloat (float_of_nat (length (List.filter success (results g)))
                      / float_of_nat (length (results g)) * 100)%float
         end).
Proof.
  unfold MultiAgentSystem.evaluate_goal_satisfaction.
  rewrite !count_if_length.
  destruct (results g) as [|r l] eqn:Hres; reflexivity.
Qed.

(** X13: in every evaluation the successful and the failed agents add up
    to the agents executed, the trajectory lists the agent names of the
    history in order, the final result is the last record, and the
    score is the integer 0 exactly when the history is empty. *)
Theorem X13_evaluation_fields (g : Goal) (e : Evaluation) :
  MultiAgentSystem.evaluate_goal_satisfaction g = Returned e ->
  successful_agents e + failed_agents e = total_agents_executed e /\
  agent_trajectory e = map agent_name (results g) /\
  length (agent_trajectory e) = total_agents_executed e /\
  final_result e = last (results g) /\
  (final_result e = None <-> results g = []) /\
  (satisfaction_score e = PyInt 0 <-> results g = []).
Proof.
  rewrite evaluate_eq. intros [= <-]. simpl.
  split; [apply filter_split_length|]. split; [reflexivity|].
  split; [apply length_map|]. split; [reflexivity|]. split.
  - split; [|intros ->; reflexivity].
    destruct (results g) as [|r l] using rev_ind; [reflexivity|].
    rewrite last_snoc. discriminate.
  - destruct (results g); split; (reflexivity || discriminate).
Qed.

Lemma X13_evaluation_fields_witness :
  exists e : Evaluation,
    MultiAgentSystem.evaluate_goal_satisfaction two_of_three = Returned e /\
    successful_agents e + failed_agents e = total_agents_executed e /\
    agent_trajectory e = ["Planner"; "SpaceX"; "Weather"].
Proof.
  eexists. split; [apply evaluate_eq|].
  destruct (X13_evaluation_fields two_of_three _ (evaluate_eq two_of_three))
    as (H1 & H2 & _).
  split; [exact H1|exact H2].
Defined.

(** ** Scores of runs *)

Lemma plan_for_length (goal_description : string) :
  1 <= length (plan_for goal_description) <= 5.
Proof.
  rewrite plan_for_eq. unfold PlannerAgent._analyze_goal.
  destruct (any_keyword_in PlannerAgent.spacex_keywords (lower goal_description));
  destruct (any_keyword_in PlannerAgent.weather_keywords (lower goal_description));
  destruct (any_keyword_in PlannerAgent.news_keywords (lower goal_description));
  destruct (any_keyword_in PlannerAgent.crypto_keywords (lower goal_description));
  destruct (any_keyword_in PlannerAgent.summary_keywords (lower goal_description));
  cbn [length app Nat.ltb Nat.leb orb]; lia.
Qed.

Lemma filter_succeeded (l : list AgentResult) :
  Forall succeeded l ->
  List.filter success l = l /\ List.filter (fun r => negb (success r)) l = [].
Proof.
  induction 1 as [|r l Hr _ [IH1 IH2]]; [now split|].
  unfold succeeded in Hr. simpl. rewrite Hr. simpl. now rewrite IH1, IH2.
Qed.

(** The score of [s] successes among [t] records, for the counts a run
    can produce: all records successful, or all but one. *)
Lemma score_range (s t : nat) :
  1 <= s -> t <= 6 -> s = t \/ S s = t ->
  PrimFloat.leb 50 (float_of_nat s / float_of_nat t * 100) = true /\
  PrimFloat.leb (float_of_nat s / float_of_nat t * 100) 100 = true /\
  (PrimFloat.eqb (float_of_nat s / float_of_nat t * 100) 100 = true <-> s = t).
Proof.
  intros Hs Ht Hst.
  do 7 (destruct t as [|t];
        [do 7 (try (destruct s as [|s]; try lia));
         vm_compute; repeat split; intros;
         first [reflexivity | lia | discriminate]|]).
  lia.
Qed.

(** X14: the evaluation of a goal returned by a run counts at most one
    failed agent, and none when the goal is satisfied; when any agent
    ran, the score is a float between 50 and 100, and it is 100 exactly
    when no agent failed. *)
Theorem X14_run_scores (ext : Collaborators) (goal_description : string)
    (max_iterations : Z) (g : Goal) :
  MultiAgentSystem.execute_goal (MultiAgentSystem.__init__ ext)
    goal_description max_iterations = Some (Returned g) ->
  exists e : Evaluation,
    MultiAgentSystem.evaluate_goal_satisfaction g = Returned e /\
    failed_agents e <= 1 /\
    (goal_satisfied e = true -> failed_agents e = 0) /\
    (results g <> [] ->
     exists f : float,
       satisfaction_score e = PyFloat f /\
       PrimFloat.leb 50 f = true /\
       PrimFloat.leb f 100 = true /\
       (PrimFloat.eqb f 100 = true <-> failed_agents e = 0)).
Proof.
  intros Hrun.
  destruct (run_returned ext goal_description max_iterations g Hrun)
    as (b & st & -> & Hp & Hc).
  pose proof (point_shape _ _ _ _ _ Hp) as Hs.
  pose proof (plan_for_length goal_description) as HP.
  clear Hrun. eexists.
  split; [apply evaluate_eq|].
  cbn [failed_agents goal_satisfied satisfaction_score].
  inversion Hs as [Hst|g d name i Hplan Hok Hal Hcur Hlen Hi Hst
                  |g d i Hplan Hok Hal Hend Hlen Hi Hst
                  |g d name i rs r Hplan Hres Hr Hok Hal Hby Hcur Hlen Hi Hst];
    subst st; cbn [MultiAgentSystem.finish results is_complete goal current_agent].
  - simpl. repeat split; try lia. intros H. now destruct H.
  - destruct (filter_succeeded _ Hok) as [-> ->].
    apply lookup_lt_Some in Hcur. rewrite Hplan in Hcur.
    split; [simpl; lia|]. split; [reflexivity|]. intros _.
    destruct (results g) as [|r0 l] eqn:Hres; [discriminate|].
    eexists. split; [reflexivity|].
    destruct (score_range (length (r0 :: l)) (length (r0 :: l)))
      as (H1 & H2 & H3); [simpl; lia|lia|now left|].
    split; [exact H1|]. split; [exact H2|]. simpl length at 3. tauto.
  - destruct (filter_succeeded _ Hok) as [-> ->]. rewrite Hplan in Hlen.
    split; [simpl; lia|]. split; [reflexivity|]. intros _.
    destruct (results g) as [|r0 l] eqn:Hres; [discriminate|].
    eexists. split; [reflexivity|].
    destruct (score_range (length (r0 :: l)) (length (r0 :: l)))
      as (H1 & H2 & H3); [simpl; lia|lia|now left|].
    split; [exact H1|]. split; [exact H2|]. simpl length at 3. tauto.
  - rewrite Hres, !List.filter_app.
    destruct (filter_succeeded _ Hok) as [-> ->].
    cbn [List.filter]. rewrite Hr. cbn [negb app length].
    apply lookup_lt_Some in Hcur. rewrite Hplan in Hcur.
    rewrite Hres, length_app in Hlen. simpl in Hlen.
    split; [lia|]. split; [discriminate|]. intros _.
    rewrite app_nil_r.
    destruct (rs ++ [r]) as [|r0 l] eqn:Happ;
      [now destruct rs|]. rewrite <- Happ, length_app. simpl length.
    eexists. split; [reflexivity|].
    destruct (score_range (length rs) (length rs + 1))
      as (H1 & H2 & H3); [lia|lia|right; lia|].
    split; [exact H1|]. split; [exact H2|]. split; [|discriminate].
    intros H. apply H3 in H. lia.
Qed.

Lemma X14_run_scores_witness :
  match MultiAgentSystem.execute_goal (MultiAgentSystem.__init__ weather_fails)
          launch_goal 10 with
  | Some (Returned g) =>
      exists e : Evaluation,
        MultiAgentSystem.evaluate_goal_satisfaction g = Returned e /\
        failed_agents e <= 1 /\
        (goal_satisfied e = true -> failed_agents e = 0) /\
        (results g <> [] ->
         exists f : float,
           satisfaction_score e = PyFloat f /\
           PrimFloat.leb 50 f = true /\
           PrimFloat.leb f 100 = true /\
           (PrimFloat.eqb f 100 = true <-> failed_agents e = 0))
  | _ => False
  end.
Proof.
  destruct (MultiAgentSystem.execute_goal (MultiAgentSystem.__init__ weather_fails)
          launch_goal 10)
    as [[|g]|] eqn:Hrun.
  - vm_compute in Hrun. discriminate Hrun.
  - exact (X14_run_scores weather_fails launch_goal 10 g Hrun).
  - vm_compute in Hrun. discriminate Hrun.
Defined.

(** ** The weather analysis *)

(** The analysis of a document whose readings could all be taken. *)
Lemma analyze_weather_unfold (py_str : Json -> string)
    (weather_data first wind : gmap string Json) (m : string) (windy dim : bool) :
  subscript0 (default (JArr [JObj ∅]) (weather_data !! "weather"))
  = Returned (JObj first) ->
  default (JStr "") (first !! "main") = JStr m ->
  default (JObj ∅) (weather_data !! "wind") = JObj wind ->
  gt_int (default (JInt 0) (wind !! "speed")) 15 = Returned windy ->
  lt_int (default (JInt 10000) (weather_data !! "visibility")) 5000 = Returned dim ->
  exists a : Analysis,
    WeatherAgent._analyze_weather_for_launch py_str weather_data = Returned a /\
    length (issues a)
    = Nat.b2n (contains "rain" (lower m) || contains "storm" (lower m))
      + Nat.b2n windy + Nat.b2n dim /\
    (recommendation a, risk_level a)
    = match length (issues a) with
      | 0 => ("FAVORABLE", "LOW")
      | 1 => ("CAUTION", "MEDIUM")
      | _ => ("UNFAVORABLE", "HIGH")
      end.
Proof.
  intros H1 H2 H3 H4 H5. unfold WeatherAgent._analyze_weather_for_launch.
  rewrite H1. cbn [and_then get_method]. rewrite H2. cbn [and_then lower_method].
  rewrite H3. cbn [and_then get_method]. rewrite H4. cbn [and_then].
  rewrite H5. cbn [and_then].
  eexists. split; [reflexivity|]. cbn [issues recommendation risk_level].
  destruct (contains "rain" (lower m) || contains "storm" (lower m)), windy, dim;
    split; reflexivity.
Qed.

(** X15: readings that are missing count as fair weather: a document
    without the keys "weather", "wind" and "visibility" is judged
    FAVORABLE with LOW risk and no issue, and so is the mock document
    used when no API key is set. *)
Theorem X15_missing_readings (py_str : Json -> string) :
  (forall weather_data : gmap string Json,
     weather_data !! "weather" = None ->
     weather_data !! "wind" = None ->
     weather_data !! "visibility" = None ->
     WeatherAgent._analyze_weather_for_launch py_str weather_data
     = Returned (mkAnalysis "FAVORABLE" "LOW" []
                            "Weather conditions are favorable for launch")) /\
  WeatherAgent._analyze_weather_for_launch py_str WeatherAgent._get_mock_weather_data
  = Returned (mkAnalysis "FAVORABLE" "LOW" []
                         "Weather conditions are favorable for launch").
Proof.
  split; [|reflexivity].
  intros wd H1 H2 H3. unfold WeatherAgent._analyze_weather_for_launch.
  rewrite H1, H2, H3. reflexivity.
Qed.

Lemma X15_missing_readings_witness :
  WeatherAgent._analyze_weather_for_launch (fun _ => "")
    {[ "name" := JStr "Cape Canaveral" ]}
  = Returned (mkAnalysis "FAVORABLE" "LOW" []
                         "Weather conditions are favorable for launch").
Proof.
  exact (proj1 (X15_missing_readings (fun _ => ""))
           {[ "name" := JStr "Cape Canaveral" ]} eq_refl eq_refl eq_refl).
Defined.

(** X16: the verdict on a report with integer readings. There are three
    possible issues: "rain" or "storm" occurring in the lower-cased main
    condition, a wind speed above 15, a visibility below 5000; both
    bounds are strict. The recommendation is FAVORABLE when none holds,
    CAUTION when exactly one does and UNFAVORABLE otherwise. *)
Theorem X16_weather_verdict (py_str : Json -> string)
    (weather_data first wind : gmap string Json) (rest : list Json)
    (m : string) (w v : Z) :
  weather_data !! "weather" = Some (JArr (JObj first :: rest)) ->
  first !! "main" = Some (JStr m) ->
  weather_data !! "wind" = Some (JObj wind) ->
  wind !! "speed" = Some (JInt w) ->
  weather_data !! "visibility" = Some (JInt v) ->
  exists a : Analysis,
    WeatherAgent._analyze_weather_for_launch py_str weather_data = Returned a /\
    length (issues a)
    = Nat.b2n (contains "rain" (lower m) || contains "storm" (lower m))
      + Nat.b2n (15 <? w)%Z + Nat.b2n (v <? 5000)%Z /\
    (recommendation a = "FAVORABLE" <->
     contains "rain" (lower m) || contains "storm" (lower m) = false /\
     (w <= 15)%Z /\ (5000 <= v)%Z) /\
    (recommendation a = "CAUTION" <-> length (issues a) = 1) /\
    (recommendation a = "UNFAVORABLE" <-> 2 <= length (issues a)).
Proof.
  intros H1 H2 H3 H4 H5.
  destruct (analyze_weather_unfold py_str weather_data first wind m
              (15 <? w)%Z (v <? 5000)%Z) as (a & Ha & Hlen & Hrec).
  - rewrite H1. reflexivity.
  - rewrite H2. reflexivity.
  - rewrite H3. reflexivity.
  - rewrite H4. reflexivity.
  - rewrite H5. reflexivity.
  - exists a. split; [exact Ha|]. split; [exact Hlen|].
    rewrite Hlen in Hrec |- *.
    destruct (contains "rain" (lower m) || contains "storm" (lower m));
      destruct (Z.ltb_spec 15 w); destruct (Z.ltb_spec v 5000);
      cbn [Nat.b2n Nat.add] in Hrec |- *; injection Hrec as -> _;
      repeat split; intros; try discriminate; try lia;
      try reflexivity;
      match goal with
      | H : _ /\ _ |- _ => destruct H as (? & ? & ?); first [discriminate | lia]
      end.
Qed.

Lemma X16_weather_verdict_witness :
  exists a : Analysis,
    WeatherAgent._analyze_weather_for_launch (fun _ => "") stormy_report
    = Returned a /\
    length (issues a) = 2 /\
    recommendation a = "UNFAVORABLE".
Proof.
  destruct (X16_weather_verdict (fun _ => "") stormy_report
              {[ "main" := JStr "Rain" ]} {[ "speed" := JInt 20 ]} [] "Rain" 20 8000
              eq_refl eq_refl eq_refl eq_refl eq_refl)
    as (a & Ha & Hlen & _ & _ & Hun).
  exists a. split; [exact Ha|]. split; [exact Hlen|].
  apply Hun. rewrite Hlen. vm_compute. lia.
Defined.

Lemma and_then_returned {A B : Type} (o : Outcome A) (k : A -> Outcome B) (b : B) :
  and_then o k = Returned b -> exists a : A, o = Returned a /\ k a = Returned b.
Proof. destruct o as [|a]; [discriminate|]. intros H. now exists a. Qed.

(** X17: the analysis raises exactly on the documents it cannot read:
    those whose "weather" is not a list starting with a dictionary (an
    empty list among them), whose main condition is not a string, whose
    "wind" is not a dictionary, or whose wind speed or visibility is not
    a number. *)
Theorem X17_weather_raises (py_str : Json -> string)
    (weather_data : gmap string Json) :
  WeatherAgent._analyze_weather_for_launch py_str weather_data = Raised
  <-> readable weather_data = false.
Proof.
  unfold WeatherAgent._analyze_weather_for_launch, readable.
  destruct (default (JArr [JObj ∅]) (weather_data !! "weather"))
    as [| | | |[|c s]|[|[| | | | | |first] l]|];
    cbn [subscript0 and_then get_method andb]; try (split; reflexivity).
  destruct (default (JStr "") (first !! "main")) as [| | | |m| |];
    cbn [and_then lower_method andb]; try (split; reflexivity).
  destruct (default (JObj ∅) (weather_data !! "wind")) as [| | | | | |wind];
    cbn [and_then get_method andb]; try (split; reflexivity).
  destruct (default (JInt 0) (wind !! "speed"));
    cbn [and_then gt_int is_number andb]; try (split; reflexivity);
    destruct (default (JInt 10000) (weather_data !! "visibility"));
    cbn [and_then lt_int is_number andb]; split; intros H;
    first [reflexivity | discriminate H].
Qed.

Lemma X17_weather_raises_witness :
  WeatherAgent._analyze_weather_for_launch (fun _ => "")
    {[ "weather" := JArr []; "visibility" := JInt 10000 ]} = Raised.
Proof.
  exact (proj2 (X17_weather_raises (fun _ => "")
                  {[ "weather" := JArr []; "visibility" := JInt 10000 ]}) eq_refl).
Defined.

(** X18: whatever the document, an analysis that is returned lists at
    most three issues; its recommendation and risk level go together
    and follow the number of issues (FAVORABLE and LOW for none, CAUTION
    and MEDIUM for one, UNFAVORABLE and HIGH for more); and its text is
    the sentence built from the lower-cased recommendation. *)
Theorem X18_analysis_consistent (py_str : Json -> string)
    (weather_data : gmap string Json) (a : Analysis) :
  WeatherAgent._analyze_weather_for_launch py_str weather_data = Returned a ->
  length (issues a) <= 3 /\
  (recommendation a, risk_level a)
  = match length (issues a) with
    | 0 => ("FAVORABLE", "LOW")
    | 1 => ("CAUTION", "MEDIUM")
    | _ => ("UNFAVORABLE", "HIGH")
    end /\
  analysis a
  = "Weather conditions are " +:+ lower (recommendation a) +:+ " for launch".
Proof.
  unfold WeatherAgent._analyze_weather_for_launch. intros H.
  apply and_then_returned in H as (first & _ & H).
  apply and_then_returned in H as (main & _ & H).
  apply and_then_returned in H as (main_weather & _ & H).
  apply and_then_returned in H as (wind_speed & _ & H).
  apply and_then_returned in H as (windy & _ & H).
  apply and_then_returned in H as (dim & _ & H).
  injection H as <-. cbn [issues recommendation risk_level analysis].
  destruct (contains "rain" main_weather || contains "storm" main_weather),
    windy, dim; cbn [app length fst snd]; repeat split; lia.
Qed.

Lemma X18_analysis_consistent_witness :
  length (issues (mkAnalysis "FAVORABLE" "LOW" []
                    "Weather conditions are favorable for launch")) <= 3 /\
  ("FAVORABLE", "LOW")
  = match length (issues (mkAnalysis "FAVORABLE" "LOW" []
                            "Weather conditions are favorable for launch")) with
    | 0 => ("FAVORABLE", "LOW")
    | 1 => ("CAUTION", "MEDIUM")
    | _ => ("UNFAVORABLE", "HIGH")
    end.
Proof.
  destruct (X18_analysis_consistent (fun _ => "") WeatherAgent._get_mock_weather_data
              _ eq_refl) as (H1 & H2 & _).
  split; [exact H1|exact H2].
Defined.

(** ** The launch location *)

Lemma find_location_none (d : list (string * Value)) :
  (forall v : Value, ~ In ("location", v) d) ->
  List.find (fun kv => String.eqb (fst kv) "location") d = None.
Proof.
  induction d as [|[k v] d IH]; intros H; [reflexivity|].
  simpl. destruct (String.eqb_spec k "location") as [->|Hne].
  - exfalso. apply (H v). now left.
  - apply IH. intros v' Hin. apply (H v'). now right.
Qed.

(** X19: [_extract_location] answers "Cape Canaveral" when the context
    has no "launchpad" or its dictionary has no "location", and raises
    when "launchpad" is not a dictionary. After a merge it follows the
    merged data alone: data with a "launchpad" dictionary decides the
    location, also when that dictionary has no "location" and the
    context had one; data without "launchpad" leaves the answer as it
    was. *)
Theorem X19_extract_location :
  (forall input_data : gmap string Value,
     input_data !! "launchpad" = None ->
     WeatherAgent._extract_location input_data = Returned (VStr "Cape Canaveral")) /\
  (forall (input_data : gmap string Value) (v : Value),
     input_data !! "launchpad" = Some v ->
     (forall d, v <> VDict d) ->
     WeatherAgent._extract_location input_data = Raised) /\
  (forall (current_data new_data : gmap string Value) (d : list (string * Value)),
     new_data !! "launchpad" = Some (VDict d) ->
     WeatherAgent._extract_location (MultiAgentSystem.update current_data new_data)
     = WeatherAgent._extract_location {[ "launchpad" := VDict d ]}) /\
  (forall (current_data new_data : gmap string Value) (d : list (string * Value)),
     new_data !! "launchpad" = Some (VDict d) ->
     (forall v : Value, ~ In ("location", v) d) ->
     WeatherAgent._extract_location (MultiAgentSystem.update current_data new_data)
     = Returned (VStr "Cape Canaveral")) /\
  (forall (current_data new_data : gmap string Value),
     new_data !! "launchpad" = None ->
     WeatherAgent._extract_location (MultiAgentSystem.update current_data new_data)
     = WeatherAgent._extract_location current_data).
Proof.
  unfold WeatherAgent._extract_location.
  split; [|split; [|split; [|split]]].
  - intros d H. now rewrite H.
  - intros d v H Hv. rewrite H. destruct v; try reflexivity. now destruct (Hv d0).
  - intros cur new d H. rewrite update_lookup, H, lookup_singleton_eq. reflexivity.
  - intros cur new d H Hd. rewrite update_lookup, H.
    rewrite (find_location_none d Hd). reflexivity.
  - intros cur new H. rewrite update_lookup, H. reflexivity.
Qed.

Lemma X19_extract_location_witness :
  WeatherAgent._extract_location
    (MultiAgentSystem.update
       {[ "launchpad" := VDict [("location", VStr "Vandenberg")] ]}
       {[ "launchpad" := VDict [("name", VStr "LC-39A")] ]})
  = WeatherAgent._extract_location {[ "launchpad" := VDict [("name", VStr "LC-39A")] ]}.
Proof.
  exact (proj1 (proj2 (proj2 X19_extract_location))
           {[ "launchpad" := VDict [("location", VStr "Vandenberg")] ]}
           {[ "launchpad" := VDict [("name", VStr "LC-39A")] ]}
           [("name", VStr "LC-39A")] eq_refl).
Defined.

(** ** A run that ends by an exception *)

(** With a summarizer that raises, as the real one does while logging a
    context that holds itself, the run for "hello" raises after the
    planner and the news agent have run; with a ceiling of 2 the
    summarizer is not reached and the run returns. *)
Lemma run_may_raise :
  MultiAgentSystem.execute_goal (MultiAgentSystem.__init__ summarize_raises)
    "hello" 10 = Some Raised /\
  match MultiAgentSystem.execute_goal (MultiAgentSystem.__init__ summarize_raises)
          "hello" 2 with
  | Some (Returned g) =>
      map agent_name (results g) = ["Planner"; "News"] /\ is_complete g = false
  | _ => False
  end.
Proof. split; vm_compute; repeat split. Qed.
